(** * OCRmyPDF: the Tesseract adapter ([ocrmypdf/exec/tesseract.py])

    A shallow embedding of the module that drives the OCR engine as a
    subprocess, and the properties of its recovery policies.

    Modelling conventions.
    - Python [str] is [string]: a sequence of characters with code points
      below 256.  [lower], [strip] and [splitlines] follow CPython on that
      range.
    - A [dict] is a [gmap string _]; the file system is a [gmap] from path
      to file contents, on Linux.  A path names a file by its text.  The
      model has no entries for directories: the names in the directory
      part of a path are taken to be directories that exist and are no
      links.  Symbolic links to files are entries of their own; opening a
      path follows them, renaming and linking do not.
    - The engine, the cleanup filter, the image library and the PDF library
      are the environment: the result of a subprocess call is an input of
      the model, files are values of the type [file].
    - Functions with effects run in the monad [M] over the state [world]
      (file system and log); an exception is the result [Raise].
    - [assert] statements are executed (no [-O]).
    - A float is the decimal literal it was read from; rounding is not
      modelled. *)

From Stdlib Require Import Ascii String ZArith QArith Lia.
From Stdlib Require Import DecimalString DecimalPos.
From stdpp Require Import gmap strings list fin_maps.
From Equations Require Import Equations.

Open Scope string_scope.
Open Scope list_scope.
Open Scope Z_scope.

#[local] Arguments String.append !_ _ / : simpl nomatch.

(** ** Text primitives *)

Module Text.

Definition code (c : ascii) : N := N_of_ascii c.

(** [s.startswith(p)]. *)
Fixpoint startswith (s p : string) {struct p} : bool :=
  match p with
  | EmptyString => true
  | String a p' =>
      match s with
      | String b s' => Ascii.eqb a b && startswith s' p'
      | EmptyString => false
      end
  end.

(** [contains p s] is Python's [p in s] on strings. *)
Fixpoint contains (p s : string) : bool :=
  startswith s p ||
  match s with
  | EmptyString => false
  | String _ s' => contains p s'
  end.

(** [s[n:]] and [s[:n]]. *)
Fixpoint drop (n : nat) (s : string) : string :=
  match n, s with
  | O, _ => s
  | S n', String _ s' => drop n' s'
  | S _, EmptyString => EmptyString
  end.

Fixpoint take (n : nat) (s : string) : string :=
  match n, s with
  | S n', String c s' => String c (take n' s')
  | _, _ => EmptyString
  end.

(** [str.lower] on code points below 256: the ASCII capitals, and the
    Latin-1 capitals 0xC0..0xDE except the multiplication sign 0xD7. *)
Definition lower_char (c : ascii) : ascii :=
  let n := code c in
  if ((65 <=? n) && (n <=? 90))%N then ascii_of_N (n + 32)
  else if ((192 <=? n) && (n <=? 222) && negb (n =? 215))%N
       then ascii_of_N (n + 32)
  else c.

Fixpoint lower (s : string) : string :=
  match s with
  | EmptyString => EmptyString
  | String c s' => String (lower_char c) (lower s')
  end.

(** [str.isspace] per character: TAB, LF, VT, FF, CR, FS, GS, RS, US,
    space, NEL and NBSP. *)
Definition is_space (c : ascii) : bool :=
  let n := code c in
  (((9 <=? n) && (n <=? 13)) || ((28 <=? n) && (n <=? 32))
   || (n =? 133) || (n =? 160))%N.

Fixpoint lstrip (s : string) : string :=
  match s with
  | EmptyString => EmptyString
  | String c s' => if is_space c then lstrip s' else s
  end.

Fixpoint rstrip (s : string) : string :=
  match s with
  | EmptyString => EmptyString
  | String c s' =>
      match rstrip s' with
      | EmptyString => if is_space c then EmptyString else String c EmptyString
      | r => String c r
      end
  end.

Definition strip (s : string) : string := rstrip (lstrip s).

(** Line boundaries of [str.splitlines]: LF, VT, FF, CR, FS, GS, RS and
    NEL; CR LF counts as one boundary. *)
Definition is_linebreak (c : ascii) : bool :=
  let n := code c in
  (((10 <=? n) && (n <=? 13)) || ((28 <=? n) && (n <=? 30)) || (n =? 133))%N.

Definition cons_line (c : ascii) (ls : list string) : list string :=
  match ls with
  | [] => [String c EmptyString]
  | l :: ls' => String c l :: ls'
  end.

(** [s.splitlines()]: no line ends are kept, and a final line break does
    not open an empty last line. *)
Fixpoint splitlines (s : string) : list string :=
  match s with
  | EmptyString => []
  | String c s' =>
      if (code c =? 13)%N then
        match s' with
        | String c' s'' =>
            if (code c' =? 10)%N then EmptyString :: splitlines s''
            else EmptyString :: splitlines s'
        | EmptyString => [EmptyString]
        end
      else if is_linebreak c then EmptyString :: splitlines s'
      else cons_line c (splitlines s')
  end.

(** [s.split(sep, maxsplit)] for a one-character separator. *)
Fixpoint split (sep : ascii) (maxsplit : nat) (s : string) : list string :=
  match s with
  | EmptyString => [EmptyString]
  | String c s' =>
      match maxsplit with
      | O => [s]
      | S m =>
          if Ascii.eqb c sep then EmptyString :: split sep m s'
          else match split sep maxsplit s' with
               | [] => [String c EmptyString]
               | p :: ps => String c p :: ps
               end
      end
  end.

(** Lexicographic order on code points: Python's [a >= b] on [str]. *)
Fixpoint str_ge (a b : string) : bool :=
  match a, b with
  | _, EmptyString => true
  | EmptyString, String _ _ => false
  | String x a', String y b' =>
      if (code y <? code x)%N then true
      else if (code x <? code y)%N then false
      else str_ge a' b'
  end.

End Text.

(** ** Numbers: [int(...)], [float(...)] and the format [{0:4d}] *)

Module Num.
Import Text.

Definition is_digit (c : ascii) : bool :=
  ((48 <=? code c) && (code c <=? 57))%N.

Definition digit_val (c : ascii) : N := (code c - 48)%N.

(** The rest of a [digitpart] once a first digit is read: digits, each
    optionally preceded by one underscore.  Returns the value, the number
    of digits and the unread text. *)
Fixpoint read_digits (acc : N) (n : nat) (s : string) : N * nat * string :=
  match s with
  | String c s' =>
      if is_digit c then read_digits (10 * acc + digit_val c)%N (S n) s'
      else if Ascii.eqb c "_" then
        match s' with
        | String c2 s'' =>
            if is_digit c2
            then read_digits (10 * acc + digit_val c2)%N (S n) s''
            else (acc, n, s)
        | EmptyString => (acc, n, s)
        end
      else (acc, n, s)
  | EmptyString => (acc, n, s)
  end.

Definition read_digitpart (s : string) : option (N * nat * string) :=
  match s with
  | String c s' =>
      if is_digit c then Some (read_digits (digit_val c) 1 s') else None
  | EmptyString => None
  end.

(** An optional sign; [true] is minus. *)
Definition read_sign (s : string) : bool * string :=
  match s with
  | String "-" s' => (true, s')
  | String "+" s' => (false, s')
  | _ => (false, s)
  end.

(** [int(s)] for a string: surrounding white space, an optional sign and
    one [digitpart]; [None] is [ValueError]. *)
Definition int_of_str (s : string) : option Z :=
  let '(neg, r) := read_sign (strip s) in
  match read_digitpart r with
  | Some (v, _, EmptyString) =>
      Some (if neg then - Z.of_N v else Z.of_N v)
  | _ => None
  end.

(** A Python float as the literal denotes it: the rounding to binary64 is
    not modelled.  [FDec neg m e] is [(-1)^neg * m * 10^e]. *)
Inductive pyfloat :=
| FNan
| FInf (neg : bool)
| FDec (neg : bool) (mant : N) (exp10 : Z).

Definition read_exponent (neg : bool) (m : N) (e : Z) (r : string)
  : option pyfloat :=
  match r with
  | EmptyString => Some (FDec neg m e)
  | String c r' =>
      if Ascii.eqb c "e" || Ascii.eqb c "E" then
        let '(eneg, r'') := read_sign r' in
        match read_digitpart r'' with
        | Some (x, _, EmptyString) =>
            Some (FDec neg m (if eneg then e - Z.of_N x else e + Z.of_N x))
        | _ => None
        end
      else None
  end.

(** [float(s)] for a string; [None] is [ValueError]. *)
Definition float_of_str (s : string) : option pyfloat :=
  let '(neg, r) := read_sign (strip s) in
  let l := lower r in
  if String.eqb l "inf" || String.eqb l "infinity" then Some (FInf neg)
  else if String.eqb l "nan" then Some FNan
  else
    match read_digitpart r with
    | Some (ip, _, r1) =>
        match r1 with
        | String "." r2 =>
            match read_digitpart r2 with
            | Some (fp, k, r3) =>
                read_exponent neg (ip * 10 ^ N.of_nat k + fp)%N
                              (- Z.of_nat k) r3
            | None => read_exponent neg ip 0 r2
            end
        | _ => read_exponent neg ip 0 r1
        end
    | None =>
        match r with
        | String "." r2 =>
            match read_digitpart r2 with
            | Some (fp, k, r3) => read_exponent neg fp (- Z.of_nat k) r3
            | None => None
            end
        | _ => None
        end
    end.

(** [float(n)] for an integer. *)
Definition float_of_int (z : Z) : pyfloat :=
  FDec (z <? 0) (Z.abs_N z) 0.

(** The numbers the module puts in a result: [0] and [0.0] are different
    objects and equal numbers. *)
Inductive pynum :=
| PInt (z : Z)
| PFloat (f : pyfloat).

Definition num_is_zero (x : pynum) : bool :=
  match x with
  | PInt z => z =? 0
  | PFloat (FDec _ m _) => (m =? 0)%N
  | PFloat _ => false
  end.

(** [str(n)] for an integer. *)
Definition str_of_int (z : Z) : string := NilZero.string_of_int (Z.to_int z).

Fixpoint spaces (n : nat) : string :=
  match n with
  | O => EmptyString
  | S n' => String " " (spaces n')
  end.

(** The format [{0:4d}] of [n]: the decimal digits, right-aligned with spaces
    in a field of width 4 at least. *)
Definition format_4d (z : Z) : string :=
  let d := str_of_int z in
  spaces (4 - String.length d) +:+ d.

End Num.

(** ** The world: files, log records, exceptions *)

(** A page of a PDF file: the media box, and whether anything is drawn. *)
Record page := Page { page_width : Q; page_height : Q; page_blank : bool }.

(** What a path holds.  [FLink] is what [os.symlink] creates: a symbolic
    link with its target as written. *)
Inductive file :=
| FText (s : string)
| FImage (w h : Z)
| FPdf (pages : list page)
| FLink (target : string)
| FOther.

Inductive level := Debug | Info | Warning | Error.

(** One call on the logger: a text message, or the argument list that
    [log.debug(args_tesseract)] hands over. *)
Inductive log_record :=
| Rec (lvl : level) (msg : string)
| RecArgs (lvl : level) (args : list string).

Inductive exn :=
| MissingDependencyError
| TesseractConfigError
| CalledProcessError (output : string)
| AssertionError
| ValueError
| AttributeError
| IndexError
| FileNotFoundError (path : string)
| FileExistsError (path : string)
| ImageError (path : string)
| PdfReadError (path : string)
| UnicodeDecodeError (path : string)
| LinkLoopError (path : string).

Record world := World { fs : gmap string file; log : list log_record }.

Inductive result (A : Type) :=
| Return (a : A)
| Raise (e : exn).
Arguments Return {A} a.
Arguments Raise {A} e.

(** State and exceptions: what was written before an exception stays. *)
Definition M (A : Type) : Type := world -> result A * world.

Definition ret {A} (a : A) : M A := fun w => (Return a, w).
Definition raise {A} (e : exn) : M A := fun w => (Raise e, w).
Definition bind {A B} (m : M A) (k : A -> M B) : M B :=
  fun w => match m w with
           | (Return a, w') => k a w'
           | (Raise e, w') => (Raise e, w')
           end.
Definition lift {A} (r : result A) : M A := fun w => (r, w).

Notation "'do' x <- m ; k" := (bind m (fun x => k))
  (at level 10, x name, m at level 100, k at level 200).
Notation "'run' m ; k" := (bind m (fun _ => k))
  (at level 10, m at level 100, k at level 200).

Definition get_fs : M (gmap string file) := fun w => (Return (fs w), w).
Definition put_fs (f : gmap string file) : M unit :=
  fun w => (Return tt, World f (log w)).
Definition emit (r : log_record) : M unit :=
  fun w => (Return tt, World (fs w) (log w ++ [r])).

Fixpoint for_each {A} (l : list A) (body : A -> M unit) : M unit :=
  match l with
  | [] => ret tt
  | x :: l' => run body x; for_each l' body
  end.

(** The result of a subprocess call with a timeout, and of one without. *)
Inductive proc_result :=
| Completed (stdout : string)
| TimedOut
| Failed (output : string).

Inductive cmd_result :=
| CmdOk (stdout : string)
| CmdFail (output : string).

(** The environment of the module.
    - [program]: what [get_program('tesseract')] returns.
    - [probe_version], [probe_parameters]: the answers of
      [tesseract --version] and [tesseract --print-parameters].
    - [run_engine args fs]: the outcome of [check_output(args, timeout=...)]
      and the file system it leaves.
    - [run_system cmd fs]: the exit status of [os.system(cmd)] and the file
      system it leaves.
    - [page_number]: the helper imported from [..helpers]. *)
Record env := Env {
  program : string;
  probe_version : cmd_result;
  probe_parameters : cmd_result;
  run_engine : list string -> gmap string file -> proc_result * gmap string file;
  run_system : string -> gmap string file -> Z * gmap string file;
  page_number : string -> Z
}.

Definition check_output (e : env) (args : list string) : M proc_result :=
  fun w => let '(r, f) := run_engine e args (fs w) in
           (Return r, World f (log w)).

Definition os_system (e : env) (cmd : string) : M Z :=
  fun w => let '(st, f) := run_system e cmd (fs w) in
           (Return st, World f (log w)).

(** ** The module [ocrmypdf.exec.tesseract] *)

Module Tesseract.
Import Text Num.

Definition rbind {A B} (r : result A) (k : A -> result B) : result B :=
  match r with
  | Return a => k a
  | Raise e => Raise e
  end.

(** The text up to the first LF: what [.+] can take. *)
Fixpoint until_newline (s : string) : string :=
  match s with
  | EmptyString => EmptyString
  | String c s' =>
      if (code c =? 10)%N then EmptyString else String c (until_newline s')
  end.

(** [re.match(r'tesseract\s(.+)', versions).group(1)]; without a match
    [.group] is looked up on [None]. *)
Definition version (e : env) : result string :=
  match probe_version e with
  | CmdFail _ => Raise MissingDependencyError
  | CmdOk versions =>
      if startswith versions "tesseract" then
        match drop 9 versions with
        | String c r =>
            if is_space c then
              match until_newline r with
              | EmptyString => Raise AttributeError
              | v => Return v
              end
            else Raise AttributeError
        | EmptyString => Raise AttributeError
        end
      else Raise AttributeError
  end.

Definition v4 (e : env) : result bool :=
  rbind (version e) (fun v => Return (str_ge v "4")).

(** What a Python function hands back where the source falls off its end:
    [None]. *)
Inductive pyval := PyTrue | PyFalse | PyNone.

Definition of_bool (b : bool) : pyval := if b then PyTrue else PyFalse.

Definition truthy (v : pyval) : bool :=
  match v with
  | PyTrue => true
  | _ => false
  end.

Definition has_textonly_pdf (e : env) : result pyval :=
  rbind (version e) (fun v =>
    if String.eqb v "4.00.00alpha" then
      match probe_parameters e with
      | CmdFail _ => Raise MissingDependencyError
      | CmdOk params =>
          if contains "textonly_pdf" params then Return PyTrue
          else Return PyNone
      end
    else rbind (v4 e) (fun b => Return (of_bool b))).

Definition psm (e : env) : result string :=
  rbind (v4 e) (fun b => Return (if b then "--psm" else "-psm")).

Fixpoint join (sep : string) (l : list string) : string :=
  match l with
  | [] => EmptyString
  | [x] => x
  | x :: l' => x +:+ sep +:+ join sep l'
  end.

Definition tess_base_args (e : env) (languages : list string)
    (engine_mode : option Z) : result (list string) :=
  let args := [program e] in
  let args :=
    match languages with
    | [] => args
    | _ => args ++ ["-l"; join "+" languages]
    end in
  match engine_mode with
  | None => Return args
  | Some m =>
      rbind (v4 e) (fun b =>
        Return (if b then args ++ ["--oem"; str_of_int m] else args))
  end.

(** *** The log classifier *)

Definition log_prefix (e : env) (input_file : string) : string :=
  format_4d (page_number e input_file) +:+ ": [tesseract] ".

(** One turn of the loop of [tesseract_log_output]: the record the line
    gives, if any. *)
Definition classify (prefix line : string) : option log_record :=
  if startswith line "Tesseract Open Source" then None
  else if startswith line "Warning in pixReadMem" then None
  else if contains "diacritics" line then
    Some (Rec Warning (prefix +:+ "lots of diacritics - possibly poor OCR"))
  else if startswith line "OSD: Weak margin" then
    Some (Rec Warning (prefix +:+ "unsure about page orientation"))
  else if contains "error" (lower line) || contains "exception" (lower line)
  then Some (Rec Error (prefix +:+ strip line))
  else if contains "warning" (lower line) then
    Some (Rec Warning (prefix +:+ strip line))
  else if contains "read_params_file" (lower line) then
    Some (Rec Error (prefix +:+ strip line))
  else Some (Rec Info (prefix +:+ strip line)).

Definition tesseract_log_output (e : env) (stdout input_file : string)
  : M unit :=
  let lines := splitlines stdout in
  let prefix := log_prefix e input_file in
  for_each lines (fun line =>
    match classify prefix line with
    | Some r => emit r
    | None => ret tt
    end).

Definition page_timedout (e : env) (input_file : string) : M unit :=
  emit (Rec Warning (log_prefix e input_file
                     +:+ " took too long to OCR - skipping")).

(** *** Orientation detection *)

Record OrientationConfidence :=
  mkOC { angle : Z; confidence : pynum }.

(** The loop that fills [osd]: a later line overwrites an earlier one with
    the same key. *)
Fixpoint parse_osd (lines : list string) (osd : gmap string string)
  : gmap string string :=
  match lines with
  | [] => osd
  | line :: rest =>
      match split ":" 2 (strip line) with
      | [k; v] => parse_osd rest (<[strip k := strip v]> osd)
      | _ => parse_osd rest osd
      end
  end.

Definition has_key (k : string) (osd : gmap string string) : bool :=
  bool_decide (is_Some (osd !! k)).

Definition assert (b : bool) : result unit :=
  if b then Return tt else Raise AssertionError.

(** The [else] branch of [get_orientation]: from the engine's standard
    output to the result. *)
Definition orientation_of_stdout (stdout : string)
  : result OrientationConfidence :=
  let osd := parse_osd (splitlines stdout) ∅ in
  rbind (match osd !! "Orientation in degrees" with
         | Some v => match int_of_str v with
                     | Some z => Return z
                     | None => Raise ValueError
                     end
         | None => Return 0
         end) (fun angle =>
  rbind (if has_key "Orientation" osd
         then rbind (assert (negb (has_key "Rotate" osd)))
                    (fun _ => Return ((- angle) mod 360))
         else rbind (assert (has_key "Rotate" osd))
                    (fun _ => Return angle)) (fun angle =>
  rbind (match osd !! "Orientation confidence" with
         | Some v => match float_of_str v with
                     | Some f => Return f
                     | None => Raise ValueError
                     end
         | None => Return (float_of_int 0)
         end) (fun conf =>
  Return (mkOC angle (PFloat conf))))).

Definition get_orientation (e : env) (input_file : string)
    (language : list string) (engine_mode : option Z)
  : M OrientationConfidence :=
  do base <- lift (tess_base_args e language engine_mode);
  do p <- lift (psm e);
  let args_tesseract := base ++ [p; "0"; input_file; "stdout"] in
  do r <- check_output e args_tesseract;
  match r with
  | TimedOut => ret (mkOC 0 (PFloat (FDec false 0 0)))
  | Failed output =>
      run tesseract_log_output e output input_file;
      if contains "Too few characters. Skipping this page" output
         || contains "Image too large" output
      then ret (mkOC 0 (PInt 0))
      else raise (CalledProcessError output)
  | Completed stdout => lift (orientation_of_stdout stdout)
  end.

End Tesseract.

(** ** Files and paths *)

Module Files.
Import Text.

(** [s.rfind(c)]: the index of the last [c], if any. *)
Fixpoint rfind (c : ascii) (s : string) : option nat :=
  match s with
  | EmptyString => None
  | String x s' =>
      match rfind c s' with
      | Some i => Some (S i)
      | None => if Ascii.eqb x c then Some O else None
      end
  end.

Fixpoint all_dots (s : string) : bool :=
  match s with
  | EmptyString => true
  | String c s' => Ascii.eqb c "." && all_dots s'
  end.

(** [os.path.splitext(p)[0]] on POSIX: cut at the last dot, when that dot
    comes after the last slash and after a character of the file name
    that is not a dot. *)
Definition splitext_root (p : string) : string :=
  match rfind "." p with
  | None => p
  | Some dot =>
      let start := match rfind "/" p with
                   | Some sep => S sep
                   | None => O
                   end in
      if (start <=? dot)%nat
      then if all_dots (take (dot - start) (drop start p))
           then p else take dot p
      else p
  end.

(** The directory part of a path, with its slash. *)
Definition dir_of (p : string) : string :=
  match rfind "/" p with
  | Some i => take (S i) p
  | None => EmptyString
  end.

(** The steps of a path: the names between its slashes. *)
Fixpoint path_steps (cur s : string) : list string :=
  match s with
  | EmptyString => [cur]
  | String c s' =>
      if Ascii.eqb c "/" then cur :: path_steps EmptyString s'
      else path_steps (cur +:+ String c EmptyString) s'
  end.

(** The directory above the directory [d], written with its slash (the
    empty text is the current directory): the last name is dropped; the
    root is its own parent; where there is no name to drop, a [..] step
    is added. *)
Definition parent_dir (d : string) : string :=
  match d with
  | EmptyString => "../"
  | "/" => "/"
  | _ =>
      let body := take (String.length d - 1) d in
      let start := match rfind "/" body with
                   | Some i => S i
                   | None => O
                   end in
      let last := drop start body in
      if String.eqb last ".." || String.eqb last "." || String.eqb last ""
      then d +:+ "../"
      else take start body
  end.

(** Walking the steps of a link target from the directory [d]: an empty
    step and [.] stay, [..] goes up, a name goes down. *)
Fixpoint walk (d : string) (steps : list string) : string :=
  match steps with
  | [] => d
  | c :: rest =>
      if String.eqb c "" || String.eqb c "." then walk d rest
      else if String.eqb c ".." then walk (parent_dir d) rest
      else match rest with
           | [] => d +:+ c
           | _ => walk (d +:+ c +:+ "/") rest
           end
  end.

(** The path a link at [link] with the target [target] points to: a
    target that starts with a slash is walked from the root, any other
    from the directory of the link. *)
Definition link_target (link target : string) : string :=
  if startswith target "/" then walk "/" (path_steps EmptyString target)
  else walk (dir_of link) (path_steps EmptyString target).

(** Where a path leads once the links are followed: to a path that holds
    no link (a file, or nothing), or into more links than the system
    follows ([ELOOP]). *)
Inductive resolved :=
| At (q : string)
| Loop.

Fixpoint resolve (fuel : nat) (f : gmap string file) (p : string)
  : resolved :=
  match f !! p with
  | Some (FLink t) =>
      match fuel with
      | O => Loop
      | S n => resolve n f (link_target p t)
      end
  | _ => At p
  end.

(** Linux follows 40 links at most. *)
Definition max_links : nat := 40.

Definition resolve_path (f : gmap string file) (p : string) : resolved :=
  resolve max_links f p.

(** The file one gets by opening [p]. *)
Definition read_path (f : gmap string file) (p : string) : result file :=
  match resolve_path f p with
  | Loop => Raise (LinkLoopError p)
  | At q =>
      match f !! q with
      | Some x => Return x
      | None => Raise (FileNotFoundError p)
      end
  end.

(** [os.path.exists]: links are followed, a link that leads nowhere does
    not exist. *)
Definition exists_path (f : gmap string file) (p : string) : bool :=
  match read_path f p with
  | Return _ => true
  | Raise _ => false
  end.

(** [os.rename(src, dst)] and [shutil.move(src, dst)] on files: what was
    at [dst] is replaced.  A link is moved or replaced as a link. *)
Definition os_rename (src dst : string) : M unit :=
  do f <- get_fs;
  match f !! src with
  | None => raise (FileNotFoundError src)
  | Some x => put_fs (<[dst := x]> (delete src f))
  end.

(** [os.symlink(src, dst)]: [dst] must be free, a link counts as taken;
    an empty target is refused. *)
Definition os_symlink (src dst : string) : M unit :=
  do f <- get_fs;
  match src with
  | EmptyString => raise (FileNotFoundError src)
  | _ =>
      match f !! dst with
      | Some _ => raise (FileExistsError dst)
      | None => put_fs (<[dst := FLink src]> f)
      end
  end.

(** Writing through [p]: the file [p] leads to gets the contents [x]; it
    is created where nothing was. *)
Definition write_path (p : string) (x : file) : M unit :=
  do f <- get_fs;
  match resolve_path f p with
  | Loop => raise (LinkLoopError p)
  | At q => put_fs (<[q := x]> f)
  end.

(** [open(p, 'w')] and [open(p, 'wb')]: the file is created or emptied. *)
Definition open_write (p : string) : M unit :=
  write_path p (FText EmptyString).

(** What is written to the file once it is open. *)
Definition write_file (p : string) (x : file) : M unit := write_path p x.

(** [open(p, 'r')]: the file must be there. *)
Definition open_read (p : string) : M unit :=
  do f <- get_fs;
  match read_path f p with
  | Raise e => raise e
  | Return _ => ret tt
  end.

(** Universal newlines on reading: CR LF and CR become LF. *)
Fixpoint universal_newlines (s : string) : string :=
  match s with
  | EmptyString => EmptyString
  | String c s' =>
      if (code c =? 13)%N then
        match s' with
        | String c' s'' =>
            if (code c' =? 10)%N then String "010" (universal_newlines s'')
            else String "010" (universal_newlines s')
        | EmptyString => String "010" EmptyString
        end
      else String c (universal_newlines s')
  end.

(** The lines a text file yields when iterated: each keeps its LF. *)
Fixpoint file_lines (s : string) : list string :=
  match s with
  | EmptyString => []
  | String c s' =>
      if (code c =? 10)%N then String c EmptyString :: file_lines s'
      else cons_line c (file_lines s')
  end.

(** The lines of the text file at [p], decoded as a whole. *)
Definition read_lines (p : string) : M (list string) :=
  do f <- get_fs;
  match read_path f p with
  | Raise e => raise e
  | Return (FText s) => ret (file_lines (universal_newlines s))
  | Return _ => raise (UnicodeDecodeError p)
  end.

(** [Image.open(p).size]. *)
Definition image_size (p : string) : M (Z * Z) :=
  do f <- get_fs;
  match read_path f p with
  | Raise e => raise e
  | Return (FImage w h) => ret (w, h)
  | Return _ => raise (ImageError p)
  end.

(** [pypdf.PdfFileReader(p).pages[0]]. *)
Definition pdf_page0 (p : string) : M page :=
  do f <- get_fs;
  match read_path f p with
  | Raise e => raise e
  | Return (FPdf (pg :: _)) => ret pg
  | Return (FPdf []) => raise IndexError
  | Return _ => raise (PdfReadError p)
  end.

End Files.

(** ** hOCR documents *)

Module Hocr.
Import Text Num.

(** The literals of this file write the double quote of the source as a
    backquote; [qq] puts the double quotes back.  No literal of the source
    holds a backquote. *)
Definition dquote : ascii := "034".

Fixpoint qq (s : string) : string :=
  match s with
  | EmptyString => EmptyString
  | String c s' => String (if Ascii.eqb c "`" then dquote else c) (qq s')
  end.

(** [HOCR_TEMPLATE.format(w, h)], with [w] and [h] already as text. *)
Definition hocr_page_title (w h : string) : string :=
  qq "  <div class='ocr_page' id='page_1' title='image `x.tif`; bbox 0 0 "
  +:+ w +:+ " " +:+ h +:+ "; ppageno 0'>".

Definition hocr_head : string :=
  qq "<?xml version=`1.0` encoding=`UTF-8`?>
<!DOCTYPE html PUBLIC `-//W3C//DTD XHTML 1.0 Transitional//EN`
    `http://www.w3.org/TR/xhtml1/DTD/xhtml1-transitional.dtd`>
<html xmlns=`http://www.w3.org/1999/xhtml` xml:lang=`en` lang=`en`>
 <head>
  <title></title>
  <meta http-equiv=`Content-Type` content=`text/html; charset=utf-8` />
  <meta name='ocr-system' content='tesseract 3.02.02' />
  <meta name='ocr-capabilities' content='ocr_page ocr_carea ocr_par ocr_line ocrx_word'/>
 </head>
 <body>
".

Definition hocr_body (w h : string) : string :=
  qq "
   <div class='ocr_carea' id='block_1_1' title=`bbox 0 1 "
  +:+ w +:+ " " +:+ h +:+ qq "`>
    <p class='ocr_par' dir='ltr' id='par_1' title=`bbox 0 1 "
  +:+ w +:+ " " +:+ h +:+ qq "`>
     <span class='ocr_line' id='line_1' title=`bbox 0 1 "
  +:+ w +:+ " " +:+ h
  +:+ qq "`><span class='ocrx_word' id='word_1' title=`bbox 0 1 "
  +:+ w +:+ " " +:+ h +:+ qq "`> </span>
     </span>
    </p>
   </div>
  </div>
 </body>
</html>".

Definition HOCR_TEMPLATE (w h : Z) : string :=
  hocr_head +:+ hocr_page_title (str_of_int w) (str_of_int h)
  +:+ hocr_body (str_of_int w) (str_of_int h).

(** *** The repair of the page title

    The pattern of the source is the text [title='image `], a group of any
    number of characters other than the double quote, and the text [`;].
    Each match in a line is replaced by [title='image ` `;] (backquotes
    standing for double quotes, as in the literals). *)

Definition title_open : string := qq "title='image `".
Definition title_repl : string := qq "title='image ` `;".

(** The longest run of characters other than the double quote, and what
    follows it. *)
Fixpoint span_name (s : string) : string * string :=
  match s with
  | EmptyString => (EmptyString, EmptyString)
  | String c s' =>
      if Ascii.eqb c dquote then (EmptyString, s)
      else let '(n, r) := span_name s' in (String c n, r)
  end.

(** A match of the pattern at the start of [s]: the quoted name and the
    text after the match.  The group is greedy and the next character must
    be the double quote, so only the longest run can match. *)
Definition match_title (s : string) : option (string * string) :=
  if startswith s title_open then
    let '(name, r) := span_name (drop 14 s) in
    match r with
    | String _ (String c r') =>
        if Ascii.eqb c ";" then Some (name, r') else None
    | _ => None
    end
  else None.

Definition inspect {A} (a : A) : {b : A | a = b} := exist _ a eq_refl.

(** [pattern.sub(repl, line)]: the matches are found from left to right
    and do not overlap; the search resumes after each match. *)
Equations? regex_sub (s : string) : string by wf (String.length s) lt :=
  regex_sub EmptyString := EmptyString;
  regex_sub (String c s') with inspect (match_title (String c s')) := {
    | exist _ (Some (_, rest)) _ := title_repl +:+ regex_sub rest;
    | exist _ None _ := String c (regex_sub s') }.
Proof.
    assert (Hspan : forall t n r, span_name t = (n, r) ->
                      (String.length r <= String.length t)%nat).
    { induction t as [|x t IH]; simpl; intros n r Hs.
      - inversion Hs; simpl; lia.
      - destruct (Ascii.eqb x dquote).
        + inversion Hs; simpl; lia.
        + destruct (span_name t) as [n' r'] eqn:Ht. inversion Hs; subst.
          specialize (IH _ _ eq_refl). lia. }
    assert (Hdrop : forall k t, (String.length (drop k t) <= String.length t)%nat).
    { induction k as [|k IH]; intros [|x t]; simpl; try lia.
      specialize (IH t). lia. }
    unfold match_title in e.
    destruct (startswith (String c s') title_open); [|discriminate].
    destruct (span_name (drop 14 (String c s'))) as [n r] eqn:Hs.
    apply Hspan in Hs. pose proof (Hdrop 14%nat (String c s')) as Hd.
    destruct r as [|x [|y r']]; try discriminate.
    destruct (Ascii.eqb y ";"); [|discriminate].
    inversion e; subst. simpl in *. lia.
Qed.

End Hocr.

(** ** Page generation: [generate_hocr] and [generate_pdf] *)

Module Generate.
Import Text Num Tesseract Files Hocr.

Definition _generate_null_hocr (output_hocr image : string) : M unit :=
  do sz <- image_size image;
  let '(w, h) := sz in
  run open_write output_hocr;
  write_file output_hocr (FText (HOCR_TEMPLATE w h)).

(** The arguments after the base ones: the page segmentation mode. *)
Definition with_pagesegmode (e : env) (args : list string)
    (pagesegmode : option Z) : result (list string) :=
  match pagesegmode with
  | None => Return args
  | Some m => rbind (psm e) (fun p => Return (args ++ [p; str_of_int m]))
  end.

Fixpoint concat_lines (l : list string) : string :=
  match l with
  | [] => EmptyString
  | x :: l' => x +:+ concat_lines l'
  end.

(** The [else] branch of [generate_hocr]: the engine's file is brought to
    [badxml], both files are opened, and the lines are copied with the page
    title repaired. *)
Definition normalize_hocr (badxml output_hocr : string) : M unit :=
  do f <- get_fs;
  run (if exists_path f (badxml +:+ ".html")
       then os_rename (badxml +:+ ".html") badxml
       else if exists_path f (badxml +:+ ".hocr")
       then os_rename (badxml +:+ ".hocr") badxml
       else ret tt);
  run open_read badxml;
  run open_write output_hocr;
  do lines <- read_lines badxml;
  write_file output_hocr (FText (concat_lines (map regex_sub lines))).

Definition generate_hocr (e : env) (input_file output_hocr : string)
    (language : list string) (engine_mode : option Z)
    (tessconfig : list string) (pagesegmode : option Z) : M unit :=
  let badxml := splitext_root output_hocr +:+ ".badxml" in
  do base <- lift (tess_base_args e language engine_mode);
  do args <- lift (with_pagesegmode e base pagesegmode);
  let args_tesseract := args ++ [input_file; badxml; "hocr"] ++ tessconfig in
  run emit (RecArgs Debug args_tesseract);
  do r <- check_output e args_tesseract;
  match r with
  | TimedOut =>
      run page_timedout e input_file;
      _generate_null_hocr output_hocr input_file
  | Failed output =>
      run tesseract_log_output e output input_file;
      if contains "read_params_file: parameter not found" output
      then raise TesseractConfigError
      else if contains "Image too large" output
      then _generate_null_hocr output_hocr input_file
      else raise (CalledProcessError output)
  | Completed stdout =>
      run tesseract_log_output e stdout input_file;
      normalize_hocr badxml output_hocr
  end.

Definition use_skip_page (text_only : bool) (skip_pdf output_pdf : string)
  : M unit :=
  if negb text_only then os_symlink skip_pdf output_pdf
  else
    do page0 <- pdf_page0 skip_pdf;
    run open_write output_pdf;
    write_file output_pdf
      (FPdf [Page (page_width page0) (page_height page0) true]).

Definition textcleaner_command (input_image input_image_clean : string)
  : string :=
  "textcleaner -g -e stretch -f 25 -o 10 -u " +:+ input_image
  +:+ " " +:+ input_image_clean.

Definition generate_pdf (e : env) (input_image skip_pdf output_pdf : string)
    (language : list string) (engine_mode : option Z) (text_only : bool)
    (tessconfig : list string) (pagesegmode : option Z) : M unit :=
  do base <- lift (tess_base_args e language engine_mode);
  do args <- lift (with_pagesegmode e base pagesegmode);
  let args := if text_only then args ++ ["-c"; "textonly_pdf=1"] else args in
  let input_image_clean := input_image +:+ "-clean.png" in
  run emit (Rec Info ("Textcleaning " +:+ input_image));
  do status <- os_system e (textcleaner_command input_image input_image_clean);
  run os_rename input_image_clean input_image;
  let args_tesseract :=
    args ++ [input_image; splitext_root output_pdf; "pdf"] ++ tessconfig in
  run emit (RecArgs Debug args_tesseract);
  do r <- check_output e args_tesseract;
  match r with
  | TimedOut =>
      run page_timedout e input_image;
      use_skip_page text_only skip_pdf output_pdf
  | Failed output =>
      run tesseract_log_output e output input_image;
      if contains "read_params_file: parameter not found" output
      then raise TesseractConfigError
      else if contains "Image too large" output
      then use_skip_page text_only skip_pdf output_pdf
      else raise (CalledProcessError output)
  | Completed stdout => tesseract_log_output e stdout input_image
  end.

End Generate.

(** ** The language listing: [languages] *)

Module Listing.
Import Text Tesseract.

(** [languages()], from the answer of [tesseract --list-langs]: the first
    line is the heading, every other line is a name. *)
Definition languages (listing : cmd_result) : result (gset string) :=
  match listing with
  | CmdFail _ => Raise MissingDependencyError
  | CmdOk langs => Return (list_to_set (map strip (tail (splitlines langs))))
  end.

End Listing.

(** ** A sample environment, for closed instances *)

Module Sample.

(** An engine of version [ver] whose every call answers [r] and leaves the
    files alone; page number 7. *)
Definition env_of (ver : string) (r : proc_result) : env :=
  Env "tesseract" (CmdOk ("tesseract " +:+ ver)) (CmdOk "")
      (fun _ f => (r, f)) (fun _ f => (0, f)) (fun _ => 7).

(** The same with the answer [params] to [--print-parameters]. *)
Definition env_params (ver params : string) : env :=
  Env "tesseract" (CmdOk ("tesseract " +:+ ver)) (CmdOk params)
      (fun _ f => (TimedOut, f)) (fun _ f => (0, f)) (fun _ => 7).

Definition w0 : world := World ∅ [].


Definition osd_new : string := "Orientation in degrees: 90
Rotate: 270".


(** A page image of 640 by 480 pixels, alone in the file system. *)
Definition w_image : world := World {["000007.png" := FImage 640 480]} [].

(** An engine that succeeds and leaves the document [doc] where Tesseract
    3.03 puts it, at [000007.badxml.hocr]. *)
Definition env_writing (doc : string) : env :=
  Env "tesseract" (CmdOk "tesseract 3.03") (CmdOk "")
      (fun _ f => (Completed "", <["000007.badxml.hocr" := FText doc]> f))
      (fun _ f => (0, f)) (fun _ => 7).

(** A fallback page of 612 by 792 points with content, the cleaned image
    next to the page image: the files after a cleanup that worked. *)
Definition skip_page : page := Page (612 # 1) (792 # 1) false.

Definition w_pdf : world :=
  World (<["000007.png-clean.png" := FImage 640 480]>
           (<["000007.skip.pdf" := FPdf [skip_page]]>
              {["000007.png" := FImage 640 480]})) [].





(** The arguments of the sample calls, for the language [eng] and without
    engine mode, page segmentation mode or extra configuration. *)
Definition hocr_argv : list string :=
  ["tesseract"; "-l"; "eng"; "000007.png"; "000007.badxml"; "hocr"].

End Sample.

(** * Statements

    The notions the statements below are written with. *)

Module Statements.
Import Text Num Tesseract Files Hocr Generate.

(** ** The log classifier *)

(** The table of the specification, a rule per row, the first rule that
    applies wins; a line that no rule takes is kept as [Info]. *)
Inductive action :=
| Drop
| Say (lvl : level) (msg : string)
| Keep (lvl : level).

Definition spec_severity_table : list ((string -> bool) * action) :=
  [ (fun l => startswith l "Tesseract Open Source", Drop);
    (fun l => startswith l "Warning in pixReadMem", Drop);
    (fun l => contains "diacritics" l,
     Say Warning "lots of diacritics - possibly poor OCR");
    (fun l => startswith l "OSD: Weak margin",
     Say Warning "unsure about page orientation");
    (fun l => contains "error" (lower l) || contains "exception" (lower l),
     Keep Error);
    (fun l => contains "warning" (lower l), Keep Warning);
    (fun l => contains "read_params_file" (lower l), Keep Error) ].

Fixpoint first_rule (tbl : list ((string -> bool) * action)) (line : string)
  : action :=
  match tbl with
  | [] => Keep Info
  | (applies, a) :: tbl' => if applies line then a else first_rule tbl' line
  end.

Definition spec_record (prefix line : string) : option log_record :=
  match first_rule spec_severity_table line with
  | Drop => None
  | Say lvl msg => Some (Rec lvl (prefix +:+ msg))
  | Keep lvl => Some (Rec lvl (prefix +:+ strip line))
  end.

(** ** Orientation detection *)

(** The arguments of the call and its outcome, shared by the statements
    below. *)
Definition engine_call (e : env) (input_file : string)
    (language : list string) (engine_mode : option Z) (w : world)
    (r : proc_result) (f' : gmap string file) : Prop :=
  exists base p,
    tess_base_args e language engine_mode = Return base
    /\ psm e = Return p
    /\ run_engine e (base ++ [p; "0"; input_file; "stdout"]) (fs w) = (r, f').

(** What [int(osd.get('Orientation in degrees', 0))] and
    [float(osd.get('Orientation confidence', 0))] give; [None] is
    [ValueError]. *)
Definition raw_angle (osd : gmap string string) : option Z :=
  match osd !! "Orientation in degrees" with
  | Some v => int_of_str v
  | None => Some 0
  end.

Definition read_confidence (osd : gmap string string) : option pynum :=
  match osd !! "Orientation confidence" with
  | Some v => PFloat <$> float_of_str v
  | None => Some (PFloat (float_of_int 0))
  end.

Definition osd_of (stdout : string) : gmap string string :=
  parse_osd (splitlines stdout) ∅.

(** ** The page title *)

(** No double quote in [s]. *)
Fixpoint quote_free (s : string) : bool :=
  match s with
  | EmptyString => true
  | String c s' => negb (Ascii.eqb c dquote) && quote_free s'
  end.

Definition title_close (rest : string) : string :=
  String dquote (String ";" rest).

(** ** [generate_hocr] *)

(** The engine call of [generate_hocr]: its arguments, its outcome and the
    files it leaves. *)
Definition hocr_call (e : env) (input_file output_hocr : string)
    (language : list string) (engine_mode : option Z)
    (tessconfig : list string) (pagesegmode : option Z) (w : world)
    (args_tesseract : list string) (r : proc_result)
    (f' : gmap string file) : Prop :=
  exists base args,
    tess_base_args e language engine_mode = Return base
    /\ with_pagesegmode e base pagesegmode = Return args
    /\ args_tesseract
       = args ++ [input_file; splitext_root output_hocr +:+ ".badxml"; "hocr"]
              ++ tessconfig
    /\ run_engine e args_tesseract (fs w) = (r, f').

(** The markers of the recovery policy. *)
Definition param_marker : string := "read_params_file: parameter not found".
Definition too_large_marker : string := "Image too large".

(** The files once the engine's document is brought to [badxml]: the
    engine leaves it at [badxml.html], at [badxml.hocr] or at [badxml]. *)
Definition rename_entry (f : gmap string file) (src dst : string)
  : gmap string file :=
  match f !! src with
  | Some x => <[dst := x]> (delete src f)
  | None => f
  end.

Definition moved (f : gmap string file) (badxml : string) : gmap string file :=
  if exists_path f (badxml +:+ ".html")
  then rename_entry f (badxml +:+ ".html") badxml
  else if exists_path f (badxml +:+ ".hocr")
  then rename_entry f (badxml +:+ ".hocr") badxml
  else f.

(** A path entry that is no link. *)
Definition no_link (o : option file) : Prop :=
  forall t, o <> Some (FLink t).

(** The decimal digits of a number, read back. *)
Fixpoint horner (acc : Z) (d : Decimal.uint) : Z :=
  match d with
  | Decimal.Nil => acc
  | Decimal.D0 l => horner (10 * acc + 0) l
  | Decimal.D1 l => horner (10 * acc + 1) l
  | Decimal.D2 l => horner (10 * acc + 2) l
  | Decimal.D3 l => horner (10 * acc + 3) l
  | Decimal.D4 l => horner (10 * acc + 4) l
  | Decimal.D5 l => horner (10 * acc + 5) l
  | Decimal.D6 l => horner (10 * acc + 6) l
  | Decimal.D7 l => horner (10 * acc + 7) l
  | Decimal.D8 l => horner (10 * acc + 8) l
  | Decimal.D9 l => horner (10 * acc + 9) l
  end.

Definition no_digit_ahead (s : string) : Prop :=
  match s with
  | String c _ => is_digit c = false
  | EmptyString => True
  end.

(** Reading the page box a document declares: after the first
    [class='ocr_page'], the four numbers that follow the first [bbox ],
    set apart by single spaces. *)
Fixpoint after (m s : string) : option string :=
  if startswith s m then Some (drop (String.length m) s)
  else match s with
       | EmptyString => None
       | String _ s' => after m s'
       end.

Fixpoint digits (acc : Z) (s : string) : Z * string :=
  match s with
  | String c s' =>
      if is_digit c then digits (10 * acc + Z.of_N (digit_val c)) s'
      else (acc, s)
  | EmptyString => (acc, s)
  end.

Definition read_number (s : string) : option (Z * string) :=
  match s with
  | String c s' =>
      if is_digit c then Some (digits (Z.of_N (digit_val c)) s') else None
  | EmptyString => None
  end.

Definition read_space (s : string) : option string :=
  match s with
  | String c s' => if Ascii.eqb c " " then Some s' else None
  | EmptyString => None
  end.

Definition page_box (doc : string) : option (Z * Z * Z * Z) :=
  match after "class='ocr_page'" doc with
  | None => None
  | Some r0 =>
      match after "bbox " r0 with
      | None => None
      | Some r1 =>
          match read_number r1 with
          | None => None
          | Some (x0, r2) =>
              match option_bind _ _ read_number (read_space r2) with
              | None => None
              | Some (y0, r3) =>
                  match option_bind _ _ read_number (read_space r3) with
                  | None => None
                  | Some (x1, r4) =>
                      match option_bind _ _ read_number (read_space r4) with
                      | None => None
                      | Some (y1, _) => Some (x0, y0, x1, y1)
                      end
                  end
              end
          end
      end
  end.

Definition repaired (content : string) : string :=
  concat_lines (map regex_sub (file_lines (universal_newlines content))).

(** ** [generate_pdf] *)




End Statements.

(** * Statements, continued

    Notions for the properties of the code around the claims. *)

Module MoreStatements.
Import Text Num Tesseract Files Hocr Generate.

(** No line feed in [s]. *)
Fixpoint no_newline (s : string) : bool :=
  match s with
  | EmptyString => true
  | String c s' => negb (code c =? 10)%N && no_newline s'
  end.

(** No line boundary of [splitlines] in [s]. *)
Fixpoint one_line (s : string) : bool :=
  match s with
  | EmptyString => true
  | String c s' => negb (is_linebreak c) && one_line s'
  end.

(** The lines [ls], each ended by a line feed. *)
Fixpoint terminated (ls : list string) : string :=
  match ls with
  | [] => EmptyString
  | l :: ls' => l +:+ String "010" (terminated ls')
  end.

(** How often [c] occurs in [s]. *)
Fixpoint count_char (c : ascii) (s : string) : nat :=
  match s with
  | EmptyString => O
  | String x s' => (if Ascii.eqb x c then 1 else 0) + count_char c s'
  end.

(** The environment [e] with another answer to [--version]. *)
Definition with_version (e : env) (probe : cmd_result) : env :=
  Env (program e) probe (probe_parameters e) (run_engine e) (run_system e)
      (page_number e).

(** The language arguments of [tess_base_args]. *)
Definition language_args (languages : list string) : list string :=
  match languages with
  | [] => []
  | _ => ["-l"; join "+" languages]
  end.

(** The lines the classifier does not drop. *)
Definition kept_line (line : string) : bool :=
  negb (startswith line "Tesseract Open Source"
        || startswith line "Warning in pixReadMem").

End MoreStatements.

(** * Properties *)

(** ** Facts on strings *)

Module TextFacts.
Import Text.

Lemma append_assoc (a b c : string) : (a +:+ b) +:+ c = a +:+ (b +:+ c).
Proof. induction a as [|x a IH]; simpl; [reflexivity | now rewrite IH]. Qed.

Lemma append_nil_r (a : string) : a +:+ "" = a.
Proof. induction a as [|x a IH]; simpl; [reflexivity | now rewrite IH]. Qed.

Lemma length_append (a b : string) :
  String.length (a +:+ b) = (String.length a + String.length b)%nat.
Proof. induction a as [|x a IH]; simpl; [reflexivity | now rewrite IH]. Qed.

Lemma startswith_append (p x : string) : startswith (p +:+ x) p = true.
Proof.
  induction p as [|c p IH]; simpl; [reflexivity |].
  now rewrite Ascii.eqb_refl.
Qed.

Lemma startswith_split (p s : string) :
  startswith s p = true -> s = p +:+ drop (String.length p) s.
Proof.
  revert s; induction p as [|c p IH]; intros s H; simpl in *.
  - reflexivity.
  - destruct s as [|d s]; [discriminate |].
    apply andb_true_iff in H as [Hc Hp]. apply Ascii.eqb_eq in Hc; subst.
    simpl. f_equal. now apply IH.
Qed.

Lemma drop_append (a b : string) : drop (String.length a) (a +:+ b) = b.
Proof. induction a as [|x a IH]; simpl; [now destruct b | exact IH]. Qed.

Lemma contains_startswith (p s : string) :
  startswith s p = true -> contains p s = true.
Proof. intros H. destruct s; simpl; rewrite H; reflexivity. Qed.

Lemma contains_append (p a b : string) : contains p (a +:+ (p +:+ b)) = true.
Proof.
  induction a as [|x a IH]; simpl.
  - apply contains_startswith, startswith_append.
  - rewrite IH. apply orb_true_r.
Qed.


End TextFacts.

(** ** Facts on the monad and the logger *)

Module LogFacts.
Import Text Num Tesseract.

Lemma for_each_emit (body : string -> option log_record) (l : list string)
    (w : world) :
  for_each l (fun x => match body x with
                       | Some r => emit r
                       | None => ret tt
                       end) w
  = (Return tt, World (fs w) (log w ++ omap body l)).
Proof.
  revert w; induction l as [|x l IH]; intros [f lg]; simpl.
  - unfold ret. now rewrite app_nil_r.
  - unfold bind. destruct (body x) as [r|]; simpl.
    + rewrite IH. simpl. now rewrite <- app_assoc.
    + rewrite IH. reflexivity.
Qed.

Lemma tesseract_log_output_run (e : env) (stdout input_file : string)
    (w : world) :
  tesseract_log_output e stdout input_file w
  = (Return tt,
     World (fs w)
           (log w ++ omap (classify (log_prefix e input_file))
                          (splitlines stdout))).
Proof. unfold tesseract_log_output. apply for_each_emit. Qed.

End LogFacts.

(** ** The log classifier (claims C5 and C6) *)

Module Classifier.
Import Text Num Tesseract Statements TextFacts LogFacts.

Lemma classify_table (prefix line : string) :
  classify prefix line = spec_record prefix line.
Proof.
  unfold classify, spec_record, spec_severity_table, first_rule.
  repeat match goal with
         | |- context [if ?b then _ else _] => destruct b
         end; reflexivity.
Qed.

(** C5 (amended).  For every text and every page, the classifier handles
    the lines of the text in their order, each by the first applicable row
    of the table: banner and [pixReadMem] lines are dropped, a line with
    [diacritics] is a warning with the fixed message
    [lots of diacritics - possibly poor OCR] (an ASCII hyphen), a line that
    starts with the weak-margin marker is the warning
    [unsure about page orientation], a line with [error] or [exception] in
    any case is an error, one with [warning] a warning, one with
    [read_params_file] an error, any other line is information. *)
Theorem log_classifier_table (e : env) (stdout input_file : string)
    (w : world) (prefix : string) :
  tesseract_log_output e stdout input_file w
  = (Return tt,
     World (fs w)
           (log w ++ omap (spec_record (log_prefix e input_file))
                          (splitlines stdout)))
  /\ spec_record prefix "Error: read_params_file: parameter not found"
     = Some (Rec Error
               (prefix +:+ "Error: read_params_file: parameter not found"))
  /\ spec_record prefix "Detected 12 diacritics"
     = Some (Rec Warning (prefix +:+ "lots of diacritics - possibly poor OCR"))
  /\ spec_record prefix "Page 1" = Some (Rec Info (prefix +:+ "Page 1"))
  /\ spec_record prefix "Tesseract Open Source OCR Engine v3.04.01" = None.
Proof.
  split.
  - rewrite tesseract_log_output_run. do 2 f_equal. f_equal.
    induction (splitlines stdout) as [|l ls IH]; [reflexivity |].
    cbn [omap list_omap]. rewrite classify_table.
    destruct (spec_record _ l); [f_equal |]; exact IH.
  - repeat split; reflexivity.
Qed.

(** C5, as stated, fails: the fixed message of the code has an ASCII
    hyphen where the claim has a dash. *)
Lemma log_classifier_message_counterexample :
  log (snd (tesseract_log_output (Sample.env_of "3.04" TimedOut)
              "Detected 12 diacritics" "000007.png" Sample.w0))
  = [Rec Warning "   7: [tesseract] lots of diacritics - possibly poor OCR"]
  /\ log (snd (tesseract_log_output (Sample.env_of "3.04" TimedOut)
                 "Detected 12 diacritics" "000007.png" Sample.w0))
     <> [Rec Warning
           "   7: [tesseract] lots of diacritics — possibly poor OCR"].
Proof. split; [reflexivity | discriminate]. Qed.

(** C6 (amended).  Every record the classifier emits is a text message
    that starts with the page number in decimal, right-aligned with spaces
    (not zeros) in a field of four characters at least, followed by
    [: [tesseract] ]. *)
Theorem log_prefix_space_padded (e : env) (stdout input_file : string)
    (w : world) :
  let n := page_number e input_file in
  exists new : list log_record,
    tesseract_log_output e stdout input_file w
    = (Return tt, World (fs w) (log w ++ new))
    /\ Forall (fun r => exists lvl body,
                 r = Rec lvl (spaces (4 - String.length (str_of_int n))
                              +:+ str_of_int n +:+ ": [tesseract] "
                              +:+ body)) new
    /\ (4 <= String.length (format_4d n))%nat.
Proof.
  intros n. eexists. split; [apply tesseract_log_output_run |]. split.
  - apply Forall_forall. intros r Hr.
    apply list_elem_of_omap in Hr as (line & _ & Hc).
    unfold classify, log_prefix, format_4d in Hc. fold n in Hc.
    repeat match type of Hc with
           | (if ?b then _ else _) = _ => destruct b
           end; try discriminate; inversion Hc; subst;
      rewrite !append_assoc; eauto.
  - unfold format_4d. rewrite length_append.
    assert (Hs : forall k, String.length (spaces k) = k)
      by (induction k; simpl; congruence).
    rewrite Hs. lia.
Qed.

(** C6, as stated, fails: page 7 is written with three spaces, not as
    [0007]. *)
Lemma log_prefix_counterexample :
  log (snd (tesseract_log_output (Sample.env_of "3.04" TimedOut)
              "Page 1" "000007.png" Sample.w0))
  = [Rec Info "   7: [tesseract] Page 1"]
  /\ forall r, In r (log (snd (tesseract_log_output
                                 (Sample.env_of "3.04" TimedOut)
                                 "Page 1" "000007.png" Sample.w0))) ->
               forall lvl body, r <> Rec lvl ("0007" +:+ body).
Proof.
  split; [reflexivity |].
  intros r [Hr | []] lvl body Heq. subst r. discriminate.
Qed.

End Classifier.

(** ** The capability gate (claim C7) *)

Module Capability.
Import Text Tesseract.

(** C7.  With [v] the engine version: for [v >= '4'] other than
    [4.00.00alpha], [has_textonly_pdf] is [True]; for [4.00.00alpha] the
    answer comes from the parameter list, [True] when it holds
    [textonly_pdf] and the falsy [None] when it does not; for [v < '4'] it
    is [False].  The order is the one of Python strings. *)
Theorem has_textonly_pdf_by_version (e : env) (v : string) :
  version e = Return v ->
  (v <> "4.00.00alpha" -> str_ge v "4" = true ->
   has_textonly_pdf e = Return PyTrue)
  /\ (v = "4.00.00alpha" -> forall params,
      probe_parameters e = CmdOk params ->
      (contains "textonly_pdf" params = true ->
       has_textonly_pdf e = Return PyTrue)
      /\ (contains "textonly_pdf" params = false ->
          has_textonly_pdf e = Return PyNone /\ truthy PyNone = false))
  /\ (str_ge v "4" = false ->
      has_textonly_pdf e = Return PyFalse /\ truthy PyFalse = false).
Proof.
  intros Hv. unfold has_textonly_pdf, v4. rewrite Hv. simpl.
  split; [| split].
  - intros Hne Hge. apply String.eqb_neq in Hne. now rewrite Hne, Hge.
  - intros -> params Hp. simpl. rewrite Hp.
    split; intros Hc; rewrite Hc; [reflexivity | now split].
  - intros Hlt. split; [| reflexivity].
    destruct (String.eqb_spec v "4.00.00alpha") as [-> | _];
      [discriminate Hlt | now rewrite Hlt].
Qed.

Lemma has_textonly_pdf_by_version_witness :
  has_textonly_pdf (Sample.env_of "4.1.1" TimedOut) = Return PyTrue
  /\ has_textonly_pdf
       (Sample.env_params "4.00.00alpha" "textord_debug 0 textonly_pdf 0")
     = Return PyTrue
  /\ has_textonly_pdf (Sample.env_of "4.00.00alpha" TimedOut) = Return PyNone
  /\ has_textonly_pdf (Sample.env_of "3.04.01" TimedOut) = Return PyFalse.
Proof.
  split; [| split; [| split]].
  - apply (has_textonly_pdf_by_version (Sample.env_of "4.1.1" TimedOut)
             "4.1.1" eq_refl); [discriminate | reflexivity].
  - apply (proj1 (proj2 (has_textonly_pdf_by_version
             (Sample.env_params "4.00.00alpha"
                                "textord_debug 0 textonly_pdf 0")
             "4.00.00alpha" eq_refl)) eq_refl _ eq_refl).
    reflexivity.
  - apply (proj1 (proj2 (has_textonly_pdf_by_version
             (Sample.env_of "4.00.00alpha" TimedOut)
             "4.00.00alpha" eq_refl)) eq_refl _ eq_refl).
    reflexivity.
  - apply (proj2 (proj2 (has_textonly_pdf_by_version
             (Sample.env_of "3.04.01" TimedOut) "3.04.01" eq_refl))).
    reflexivity.
Defined.

End Capability.

(** ** Orientation detection (claims C1, C2 and C10) *)

Module Orientation.
Import Text Num Tesseract Statements TextFacts LogFacts.

Lemma get_orientation_run e input_file language engine_mode w r f' :
  engine_call e input_file language engine_mode w r f' ->
  get_orientation e input_file language engine_mode w
  = match r with
    | TimedOut => (Return (mkOC 0 (PFloat (FDec false 0 0))),
                   World f' (log w))
    | Failed output =>
        if contains "Too few characters. Skipping this page" output
           || contains "Image too large" output
        then (Return (mkOC 0 (PInt 0)),
              World f' (log w ++ omap (classify (log_prefix e input_file))
                                      (splitlines output)))
        else (Raise (CalledProcessError output),
              World f' (log w ++ omap (classify (log_prefix e input_file))
                                      (splitlines output)))
    | Completed stdout => (orientation_of_stdout stdout, World f' (log w))
    end.
Proof.
  intros (base & p & Hb & Hp & Hr).
  unfold get_orientation, bind, lift, check_output. rewrite Hb, Hp, Hr.
  destruct r as [stdout | | output]; try reflexivity.
  rewrite tesseract_log_output_run. simpl.
  destruct (_ || _); reflexivity.
Qed.

Lemma orientation_raw_error stdout :
  raw_angle (osd_of stdout) = None ->
  orientation_of_stdout stdout = Raise ValueError.
Proof.
  unfold raw_angle, orientation_of_stdout, osd_of. intros H.
  destruct (_ !! "Orientation in degrees") as [v|]; [| discriminate].
  now rewrite H.
Qed.

Lemma orientation_raw_ok stdout raw :
  raw_angle (osd_of stdout) = Some raw ->
  orientation_of_stdout stdout
  = let osd := osd_of stdout in
    match has_key "Orientation" osd, has_key "Rotate" osd with
    | true, true | false, false => Raise AssertionError
    | o, _ =>
        match read_confidence osd with
        | Some c => Return (mkOC (if o then (- raw) mod 360 else raw) c)
        | None => Raise ValueError
        end
    end.
Proof.
  unfold raw_angle, read_confidence, orientation_of_stdout, osd_of.
  intros H.
  assert (Hraw : match parse_osd (splitlines stdout) ∅
                       !! "Orientation in degrees" with
                 | Some v => match int_of_str v with
                             | Some z => Return z
                             | None => Raise ValueError
                             end
                 | None => Return 0
                 end = Return raw).
  { destruct (_ !! "Orientation in degrees") as [v|];
      [now rewrite H | congruence]. }
  rewrite Hraw. simpl.
  destruct (has_key "Orientation" _), (has_key "Rotate" _); simpl;
    try reflexivity;
    destruct (_ !! "Orientation confidence") as [v|]; simpl;
    try reflexivity; destruct (float_of_str v); reflexivity.
Qed.




(** C2 (amended).  When the engine call times out the result is angle 0
    and confidence 0.0, nothing is logged and nothing is raised.  When the
    engine exits with an error its output is classified and logged; then,
    if the output holds [Too few characters. Skipping this page] or
    [Image too large], the result is angle 0 and confidence 0, and
    otherwise the error of the call is raised again. *)
Theorem get_orientation_recovery e input_file language engine_mode w r f' :
  engine_call e input_file language engine_mode w r f' ->
  let call := get_orientation e input_file language engine_mode w in
  let logged output :=
    log w ++ omap (classify (log_prefix e input_file)) (splitlines output) in
  (r = TimedOut ->
   call = (Return (mkOC 0 (PFloat (FDec false 0 0))), World f' (log w))
   /\ num_is_zero (PFloat (FDec false 0 0)) = true)
  /\ (forall output, r = Failed output ->
      contains "Too few characters. Skipping this page" output
      || contains "Image too large" output = true ->
      call = (Return (mkOC 0 (PInt 0)), World f' (logged output))
      /\ num_is_zero (PInt 0) = true)
  /\ (forall output, r = Failed output ->
      contains "Too few characters. Skipping this page" output
      || contains "Image too large" output = false ->
      call = (Raise (CalledProcessError output), World f' (logged output))).
Proof.
  intros Hcall call logged. subst call logged.
  rewrite (get_orientation_run _ _ _ _ _ _ _ Hcall).
  split; [| split].
  - intros ->. now split.
  - intros output -> Hm. rewrite Hm. now split.
  - intros output -> Hm. now rewrite Hm.
Qed.

Lemma get_orientation_recovery_witness :
  get_orientation (Sample.env_of "3.04.00" TimedOut)
                  "000007.png" ["eng"] None Sample.w0
  = (Return (mkOC 0 (PFloat (FDec false 0 0))), Sample.w0)
  /\ get_orientation
       (Sample.env_of "3.04.00"
          (Failed "Too few characters. Skipping this page"))
       "000007.png" ["eng"] None Sample.w0
     = (Return (mkOC 0 (PInt 0)),
        World ∅ [Rec Info
          "   7: [tesseract] Too few characters. Skipping this page"])
  /\ get_orientation (Sample.env_of "3.04.00" (Failed "Segmentation fault"))
                     "000007.png" ["eng"] None Sample.w0
     = (Raise (CalledProcessError "Segmentation fault"),
        World ∅ [Rec Info "   7: [tesseract] Segmentation fault"]).
Proof.
  split; [| split].
  - refine (proj1 (proj1 (get_orientation_recovery
      (Sample.env_of "3.04.00" TimedOut)
      "000007.png" ["eng"] None Sample.w0 TimedOut ∅ _) eq_refl)).
    exists ["tesseract"; "-l"; "eng"], "-psm". now repeat split.
  - refine (proj1 (proj1 (proj2 (get_orientation_recovery
      (Sample.env_of "3.04.00"
         (Failed "Too few characters. Skipping this page"))
      "000007.png" ["eng"] None Sample.w0
      (Failed "Too few characters. Skipping this page") ∅ _))
      "Too few characters. Skipping this page" eq_refl eq_refl)).
    exists ["tesseract"; "-l"; "eng"], "-psm". now repeat split.
  - refine (proj2 (proj2 (get_orientation_recovery
      (Sample.env_of "3.04.00" (Failed "Segmentation fault"))
      "000007.png" ["eng"] None Sample.w0
      (Failed "Segmentation fault") ∅ _))
      "Segmentation fault" eq_refl eq_refl).
    exists ["tesseract"; "-l"; "eng"], "-psm". now repeat split.
Defined.

(** C2, as stated, fails: the marker of the code is the whole sentence
    [Too few characters. Skipping this page]; an output that holds
    [Too few characters] without the rest is raised again. *)
Lemma get_orientation_recovery_counterexample :
  contains "Too few characters" "Too few characters on page" = true
  /\ get_orientation
       (Sample.env_of "3.04.00" (Failed "Too few characters on page"))
       "000007.png" ["eng"] None Sample.w0
     = (Raise (CalledProcessError "Too few characters on page"),
        World ∅ [Rec Info "   7: [tesseract] Too few characters on page"]).
Proof. split; reflexivity. Qed.

(** C10 (amended).  After a successful run whose mapping has neither the
    key [Orientation] nor the key [Rotate], [get_orientation] returns
    nothing and raises: the assertion fails when the value under
    [Orientation in degrees] is absent or an integer, and [int] raises
    [ValueError] before the assertion when it is not.  A result comes back
    from the success path only with exactly one of the two keys. *)
Theorem get_orientation_no_signature_key e input_file language engine_mode w
    stdout f' :
  engine_call e input_file language engine_mode w (Completed stdout) f' ->
  let osd := osd_of stdout in
  let call := get_orientation e input_file language engine_mode w in
  (has_key "Orientation" osd = false -> has_key "Rotate" osd = false ->
   (is_Some (raw_angle osd) ->
    call = (Raise AssertionError, World f' (log w)))
   /\ (raw_angle osd = None -> call = (Raise ValueError, World f' (log w))))
  /\ (forall oc w', call = (Return oc, w') ->
      xorb (has_key "Orientation" osd) (has_key "Rotate" osd) = true).
Proof.
  intros Hcall osd call. subst call.
  rewrite (get_orientation_run _ _ _ _ _ _ _ Hcall). split.
  - intros Ho Hr. split.
    + intros [raw Hraw]. rewrite (orientation_raw_ok _ _ Hraw). fold osd.
      simpl. now rewrite Ho, Hr.
    + intros Hraw. now rewrite (orientation_raw_error _ Hraw).
  - intros oc w' Hret.
    destruct (raw_angle (osd_of stdout)) as [raw|] eqn:Hraw.
    + rewrite (orientation_raw_ok _ _ Hraw) in Hret. fold osd in Hret.
      simpl in Hret.
      destruct (has_key "Orientation" osd), (has_key "Rotate" osd);
        try reflexivity; discriminate.
    + rewrite (orientation_raw_error _ Hraw) in Hret. discriminate.
Qed.

Lemma get_orientation_no_signature_key_witness :
  get_orientation (Sample.env_of "3.04.00" (Completed "Page 1 of 1"))
                  "000007.png" ["eng"] None Sample.w0
  = (Raise AssertionError, Sample.w0)
  /\ xorb (has_key "Orientation" (osd_of Sample.osd_new))
          (has_key "Rotate" (osd_of Sample.osd_new)) = true.
Proof.
  split.
  - refine (proj1 (proj1 (get_orientation_no_signature_key
      (Sample.env_of "3.04.00" (Completed "Page 1 of 1"))
      "000007.png" ["eng"] None Sample.w0 "Page 1 of 1" ∅ _)
      eq_refl eq_refl) _).
    + exists ["tesseract"; "-l"; "eng"], "-psm". now repeat split.
    + now exists 0.
  - refine (proj2 (get_orientation_no_signature_key
      (Sample.env_of "3.04.01" (Completed Sample.osd_new))
      "000007.png" ["eng"] None Sample.w0 Sample.osd_new ∅ _)
      (mkOC 90 (PFloat (FDec false 0 0))) Sample.w0 eq_refl).
    exists ["tesseract"; "-l"; "eng"], "-psm". now repeat split.
Defined.

(** C10, as stated, fails: with neither key, a value under
    [Orientation in degrees] that is no integer makes [int] raise
    [ValueError]; no assertion is reached. *)
Lemma get_orientation_no_signature_key_counterexample :
  has_key "Orientation" (osd_of "Orientation in degrees: n/a") = false
  /\ has_key "Rotate" (osd_of "Orientation in degrees: n/a") = false
  /\ get_orientation
       (Sample.env_of "3.04.00" (Completed "Orientation in degrees: n/a"))
       "000007.png" ["eng"] None Sample.w0
     = (Raise ValueError, Sample.w0).
Proof. repeat split; reflexivity. Qed.

End Orientation.

(** ** The repair of the page title (the core of claim C9) *)

Module HocrFacts.
Import Text Hocr Statements TextFacts.

Ltac eval_titles :=
  let o := eval vm_compute in title_open in
  let r := eval vm_compute in title_repl in
  change title_open with o in *; change title_repl with r in *.

Lemma regex_sub_unfold (s : string) :
  regex_sub s =
  match s with
  | EmptyString => EmptyString
  | String c s' =>
      match match_title s with
      | Some (_, rest) => title_repl +:+ regex_sub rest
      | None => String c (regex_sub s')
      end
  end.
Proof. funelim (regex_sub s); [reflexivity | | ]; now rewrite e. Qed.

Lemma span_name_append t n r : span_name t = (n, r) -> t = n +:+ r.
Proof.
  revert n r; induction t as [|x t IH]; simpl; intros n r H.
  - now inversion H.
  - destruct (Ascii.eqb x dquote); [now inversion H |].
    destruct (span_name t) as [n' r']. inversion H; subst.
    simpl. f_equal. now apply IH.
Qed.

Lemma span_name_rest t n r :
  span_name t = (n, r) -> r = "" \/ exists y, r = String dquote y.
Proof.
  revert n r; induction t as [|x t IH]; simpl; intros n r H.
  - inversion H. now left.
  - destruct (Ascii.eqb_spec x dquote) as [-> | _].
    + inversion H. right. now eexists.
    + destruct (span_name t) as [n' r']. inversion H; subst.
      exact (IH _ _ eq_refl).
Qed.

Lemma span_name_exact n y :
  quote_free n = true -> span_name (n +:+ String dquote y) = (n, String dquote y).
Proof.
  induction n as [|x n IH]; simpl; intros H.
  - reflexivity.
  - apply andb_true_iff in H as [Hx Hn]. apply negb_true_iff in Hx.
    now rewrite Hx, (IH Hn).
Qed.

Lemma span_name_free t n r : span_name t = (n, r) -> quote_free n = true.
Proof.
  revert n r; induction t as [|x t IH]; simpl; intros n r H.
  - now inversion H.
  - destruct (Ascii.eqb x dquote) eqn:Hx; [now inversion H |].
    destruct (span_name t) as [n' r']. inversion H; subst. simpl.
    rewrite Hx. simpl. exact (IH _ _ eq_refl).
Qed.

Lemma match_title_inv s name rest :
  match_title s = Some (name, rest) ->
  s = title_open +:+ name +:+ title_close rest /\ quote_free name = true.
Proof.
  unfold match_title. intros H.
  destruct (startswith s title_open) eqn:Hp; [| discriminate].
  apply startswith_split in Hp. change (String.length title_open) with 14%nat in Hp.
  destruct (span_name (drop 14 s)) as [n r] eqn:Hs.
  destruct (span_name_rest _ _ _ Hs) as [-> | [y ->]]; [discriminate |].
  destruct y as [|c y]; [discriminate |].
  destruct (Ascii.eqb_spec c ";") as [-> | _]; [| discriminate].
  inversion H; subst. split; [| exact (span_name_free _ _ _ Hs)].
  rewrite Hp at 1. f_equal. now apply span_name_append.
Qed.


(** The substitution keeps the first character of a line. *)
Lemma regex_sub_head s c t :
  regex_sub s = String c t -> exists t', s = String c t'.
Proof.
  rewrite regex_sub_unfold. destruct s as [|x s']; [discriminate |].
  destruct (match_title (String x s')) as [[nm rest]|] eqn:Hm.
  - apply match_title_inv in Hm as [Heq _]. rewrite Heq.
    eval_titles. simpl. intros H. inversion H. now eexists.
  - intros H. inversion H. now eexists.
Qed.

(** The substitution keeps a line up to its first double quote; after it
    comes the placeholder, or the substitution of what followed. *)
Lemma regex_sub_span s n r :
  span_name s = (n, r) ->
  (r = "" -> span_name (regex_sub s) = (n, ""))
  /\ (forall y, r = String dquote y ->
      exists z, span_name (regex_sub s) = (n, String dquote z)
                /\ (z = regex_sub y \/ exists t, z = String " " (title_close t))).
Proof.
  revert n r; induction s as [|c s' IH]; intros n r Hs.
  - simpl in Hs. inversion Hs; subst. split; [reflexivity | discriminate].
  - rewrite regex_sub_unfold.
    destruct (match_title (String c s')) as [[nm rest]|] eqn:Hm.
    + apply match_title_inv in Hm as [Heq _]. rewrite Heq in Hs.
      generalize (regex_sub rest); intros T.
      eval_titles. simpl in Hs. inversion Hs; subst n r.
      split; [discriminate |]. intros y _. eexists. simpl. split;
        [reflexivity | right; now eexists].
    + simpl in Hs. simpl. destruct (Ascii.eqb_spec c dquote) as [-> | Hc].
      * inversion Hs; subst n r. split; [discriminate |].
        intros y Hy. inversion Hy; subst. eexists. split;
          [reflexivity | now left].
      * destruct (span_name s') as [n1 r1] eqn:H1. inversion Hs; subst n r.
        destruct (IH _ _ eq_refl) as [IHa IHb]. split.
        -- intros ->. now rewrite (IHa eq_refl).
        -- intros y ->. destruct (IHb y eq_refl) as (z & Hz & Hd).
           exists z. now rewrite Hz.
Qed.

(** A match at the start of a repaired line holds the placeholder. *)
Lemma match_title_regex_sub s name rest :
  match_title (regex_sub s) = Some (name, rest) -> name = " ".
Proof.
  intros H. destruct (match_title s) as [[nm rest0]|] eqn:Hm.
  - rewrite regex_sub_unfold, Hm in H.
    destruct s as [|c s']; [discriminate Hm |].
    revert H. generalize (regex_sub rest0); intros T H.
    unfold match_title in H. eval_titles. simpl in H. now inversion H.
  - pose proof H as H'. apply match_title_inv in H' as [Hout _].
    destruct (span_name s) as [n r] eqn:Hs.
    destruct (regex_sub_span _ _ _ Hs) as [Ha Hb].
    assert (Hspan : span_name (regex_sub s)
                    = ("title='image ", String dquote (name +:+ title_close rest))).
    { rewrite Hout. eval_titles. reflexivity. }
    destruct (span_name_rest _ _ _ Hs) as [-> | [y ->]].
    + rewrite (Ha eq_refl) in Hspan. discriminate.
    + destruct (Hb y eq_refl) as (z & Hz & Hd). rewrite Hz in Hspan.
      inversion Hspan; subst n z. clear Hspan Ha Hb.
      apply span_name_append in Hs.
      change ("title='image " +:+ String dquote y) with (title_open +:+ y) in Hs.
      destruct Hd as [Hd | [t Hd]].
      * (* the text after the quote was itself substituted *)
        unfold match_title in Hm. rewrite Hs, startswith_append in Hm.
        change 14%nat with (String.length title_open) in Hm.
        rewrite drop_append in Hm.
        destruct (span_name y) as [n2 r2] eqn:Hy.
        destruct (regex_sub_span _ _ _ Hy) as [Ha Hb].
        assert (Hspan : span_name (regex_sub y) = (name, title_close rest)).
        { rewrite <- Hd. apply span_name_exact.
          apply match_title_inv in H. tauto. }
        destruct (span_name_rest _ _ _ Hy) as [-> | [y2 ->]].
        -- rewrite (Ha eq_refl) in Hspan. discriminate.
        -- destruct (Hb y2 eq_refl) as (z2 & Hz2 & Hd2). rewrite Hz2 in Hspan.
           inversion Hspan; subst. destruct Hd2 as [Hd2 | [t Hd2]];
             [| discriminate].
           symmetry in Hd2. apply regex_sub_head in Hd2 as [t' ->].
           simpl in Hm. discriminate.
      * (* the placeholder follows the quote *)
        assert (Hn : span_name (name +:+ title_close rest)
                     = (name, title_close rest)).
        { apply span_name_exact. apply match_title_inv in H. tauto. }
        rewrite Hd in Hn. simpl in Hn. now inversion Hn.
Qed.

(** Every match of the pattern in a repaired line, at any position, holds
    the placeholder. *)
Lemma regex_sub_clean s k name rest :
  match_title (drop k (regex_sub s)) = Some (name, rest) -> name = " ".
Proof.
  revert k name rest. funelim (regex_sub s); intros k name rest' Hk.
  - destruct k; discriminate Hk.
  - clear Heqcall H0. revert H Hk. generalize (regex_sub rest).
    intros T IH Hk. unfold match_title in Hk. eval_titles.
    do 17 (destruct k as [|k]; [simpl in Hk; try discriminate Hk;
                                now inversion Hk |]).
    simpl in Hk. eapply (IH k). unfold match_title. eval_titles. exact Hk.
  - destruct k as [|k].
    + simpl in Hk. rewrite Heqcall in Hk.
      now apply match_title_regex_sub in Hk.
    + simpl in Hk. now apply H in Hk.
Qed.


End HocrFacts.

(** ** Facts on files, links and decimal numbers *)

Module FilesFacts.
Import Text Num Files Hocr Generate Statements TextFacts.

Lemma resolve_no_link n f p q : resolve n f p = At q -> no_link (f !! q).
Proof.
  revert p; induction n as [|n IH]; intros p; simpl;
    destruct (f !! p) as [[]|] eqn:Hp; intros H;
    try (inversion H; subst; intros t; rewrite Hp; discriminate);
    try discriminate.
  now apply (IH _ H).
Qed.

Lemma resolve_plain n f p : no_link (f !! p) -> resolve n f p = At p.
Proof.
  intros H. destruct n; simpl; destruct (f !! p) as [[]|] eqn:Hp;
    try reflexivity; now destruct (H target).
Qed.

(** Writing a file where no link is changes no resolution. *)
Lemma resolve_insert n f q x p :
  no_link (f !! q) -> no_link (Some x) ->
  resolve n (<[q := x]> f) p = resolve n f p.
Proof.
  intros Hq Hx. revert p; induction n as [|n IH]; intros p; simpl;
    (destruct (decide (q = p)) as [-> | Hne];
     [rewrite lookup_insert_eq; destruct x; try (now destruct (Hx target));
      destruct (f !! p) as [[]|] eqn:Hp; try reflexivity;
      now destruct (Hq target)
     | rewrite lookup_insert_ne by exact Hne;
       destruct (f !! p) as [[]|]; try reflexivity; apply IH]).
Qed.

Lemma read_path_at f p q x :
  resolve_path f p = At q -> f !! q = Some x -> read_path f p = Return x.
Proof. intros Hr Hx. unfold read_path. now rewrite Hr, Hx. Qed.

Lemma read_path_inv f p x :
  read_path f p = Return x ->
  exists q, resolve_path f p = At q /\ f !! q = Some x.
Proof.
  unfold read_path. destruct (resolve_path f p) as [q|]; [| discriminate].
  destruct (f !! q) as [y|] eqn:Hq; [| discriminate].
  intros H. inversion H; subst. now exists q.
Qed.

Lemma exists_path_lookup f p :
  exists_path f p = true -> exists x, f !! p = Some x.
Proof.
  intros H. destruct (f !! p) as [x|] eqn:Hp; [now exists x |].
  unfold exists_path, read_path, resolve_path in H.
  rewrite resolve_plain, Hp in H; [discriminate |].
  intros t. now rewrite Hp.
Qed.

(** Opening a path for writing and writing the contents [x]. *)
Lemma write_through f lg p q x :
  resolve_path f p = At q -> no_link (Some x) ->
  (do _ <- open_write p; write_file p x) (World f lg)
  = (Return tt, World (<[q := x]> f) lg).
Proof.
  intros Hr Hx. unfold open_write, write_file, write_path, bind, get_fs,
    put_fs. cbn [fs log]. rewrite Hr. cbn [fs log].
  unfold resolve_path in *. rewrite resolve_insert, Hr.
  - now rewrite insert_insert_eq.
  - exact (resolve_no_link _ _ _ _ Hr).
  - discriminate.
Qed.

Lemma digits_uint d acc rest :
  no_digit_ahead rest ->
  digits acc (NilEmpty.string_of_uint d +:+ rest) = (horner acc d, rest).
Proof.
  intros Hrest. revert acc; induction d; intros acc; simpl;
    try apply IHd.
  destruct rest as [|c r]; [reflexivity |]. simpl in *. now rewrite Hrest.
Qed.

Lemma horner_pos d acc :
  horner (Z.pos acc) d = Z.pos (Pos.of_uint_acc d acc).
Proof.
  revert acc; induction d; intros acc; simpl; try reflexivity;
    rewrite <- IHd; f_equal; lia.
Qed.

Lemma horner_zero d : horner 0 d = Z.of_N (Pos.of_uint d).
Proof.
  induction d; simpl; try reflexivity; try exact IHd;
    apply (horner_pos d).
Qed.

Lemma read_number_str z rest :
  0 <= z -> no_digit_ahead rest ->
  read_number (str_of_int z +:+ rest) = Some (z, rest).
Proof.
  intros Hz Hrest. unfold str_of_int.
  destruct z as [|p|p]; [| | lia].
  - simpl. destruct rest as [|c r]; [reflexivity |]. simpl in *.
    now rewrite Hrest.
  - simpl. pose proof (Unsigned.to_uint_nonnil p) as Hnil.
    pose proof (DecimalPos.Unsigned.of_to p) as Hof.
    apply (f_equal Z.of_N) in Hof. rewrite <- horner_zero in Hof.
    simpl in Hof. rewrite <- Hof.
    destruct (Pos.to_uint p) as [|d|d|d|d|d|d|d|d|d|d]; [congruence | ..];
      simpl; rewrite (digits_uint _ _ _ Hrest); reflexivity.
Qed.

(** The page box the null document declares. *)
Lemma page_box_template iw ih :
  0 <= iw -> 0 <= ih -> page_box (HOCR_TEMPLATE iw ih) = Some (0, 0, iw, ih).
Proof.
  intros Hw Hh. unfold HOCR_TEMPLATE, hocr_page_title, page_box.
  rewrite !append_assoc.
  set (tail := "; ppageno 0'>"
               +:+ hocr_body (str_of_int iw) (str_of_int ih)).
  assert (H0 : forall W T,
    after "class='ocr_page'"
      (hocr_head
       +:+ qq "  <div class='ocr_page' id='page_1' title='image `x.tif`; bbox 0 0 "
       +:+ W +:+ T)
    = Some (qq " id='page_1' title='image `x.tif`; bbox 0 0 " +:+ W +:+ T))
    by (intros W T; vm_compute; reflexivity).
  rewrite H0. clear H0.
  assert (H1 : forall W T,
    after "bbox "
      (qq " id='page_1' title='image `x.tif`; bbox 0 0 " +:+ W +:+ T)
    = Some ("0 0 " +:+ W +:+ T))
    by (intros W T; vm_compute; reflexivity).
  rewrite H1. clear H1.
  change (read_number ("0 0 " +:+ str_of_int iw +:+ " " +:+ str_of_int ih
                       +:+ tail))
    with (Some (0, " 0 " +:+ str_of_int iw +:+ " " +:+ str_of_int ih
                   +:+ tail)).
  cbv beta iota.
  change (read_space (" 0 " +:+ str_of_int iw +:+ " " +:+ str_of_int ih
                      +:+ tail))
    with (Some ("0 " +:+ str_of_int iw +:+ " " +:+ str_of_int ih +:+ tail)).
  change (option_bind _ _ read_number
            (Some ("0 " +:+ str_of_int iw +:+ " " +:+ str_of_int ih
                   +:+ tail)))
    with (Some (0, " " +:+ str_of_int iw +:+ " " +:+ str_of_int ih
                   +:+ tail)).
  cbv beta iota.
  change (read_space (" " +:+ str_of_int iw +:+ " " +:+ str_of_int ih
                      +:+ tail))
    with (Some (str_of_int iw +:+ " " +:+ str_of_int ih +:+ tail)).
  unfold option_bind at 1.
  rewrite (read_number_str iw _ Hw) by reflexivity. cbv beta iota.
  change (read_space (" " +:+ str_of_int ih +:+ tail))
    with (Some (str_of_int ih +:+ tail)).
  unfold option_bind.
  now rewrite (read_number_str ih _ Hh) by reflexivity.
Qed.

End FilesFacts.

(** ** Recovery in [generate_hocr] (claims C3 and C9) *)

Module HocrRecovery.
Import Text Num Tesseract Files Hocr Generate Statements.
Import TextFacts LogFacts HocrFacts FilesFacts.


Lemma generate_hocr_run e input_file output_hocr language engine_mode
    tessconfig pagesegmode w args_tesseract r f' :
  hocr_call e input_file output_hocr language engine_mode tessconfig
            pagesegmode w args_tesseract r f' ->
  generate_hocr e input_file output_hocr language engine_mode tessconfig
                pagesegmode w
  = match r with
    | TimedOut =>
        bind (page_timedout e input_file)
             (fun _ => _generate_null_hocr output_hocr input_file)
    | Failed output =>
        bind (tesseract_log_output e output input_file) (fun _ =>
          if contains "read_params_file: parameter not found" output
          then raise TesseractConfigError
          else if contains "Image too large" output
          then _generate_null_hocr output_hocr input_file
          else raise (CalledProcessError output))
    | Completed stdout =>
        bind (tesseract_log_output e stdout input_file) (fun _ =>
          normalize_hocr (splitext_root output_hocr +:+ ".badxml")
                         output_hocr)
    end (World f' (log w ++ [RecArgs Debug args_tesseract])).
Proof.
  intros (base & args & Hb & Ha & -> & Hr).
  unfold generate_hocr, bind, lift. rewrite Hb, Ha.
  unfold emit, check_output. cbn [fs log]. rewrite Hr.
  now destruct r.
Qed.

Lemma null_hocr_run f lg output_hocr image iw ih q :
  read_path f image = Return (FImage iw ih) ->
  resolve_path f output_hocr = At q ->
  _generate_null_hocr output_hocr image (World f lg)
  = (Return tt, World (<[q := FText (HOCR_TEMPLATE iw ih)]> f) lg).
Proof.
  intros Hi Hq. unfold _generate_null_hocr. unfold bind at 1.
  unfold image_size, bind at 1, get_fs. cbn [fs log]. rewrite Hi.
  unfold ret. cbv beta iota.
  apply write_through; [exact Hq | discriminate].
Qed.

(** C3 (amended).  [generate_hocr] logs its arguments and calls the
    engine.  On a timeout it logs a warning, writes to the file the output
    path leads to the null document for the pixel size [w], [h] of the
    source image, and returns; the page box that document declares is
    [0 0 w h].  On an error exit it logs the classified output; then, if
    the output holds [read_params_file: parameter not found], it raises
    [TesseractConfigError]; otherwise, if the output holds
    [Image too large], it writes the same null document and returns;
    otherwise it raises the error of the call again. *)
Theorem generate_hocr_recovery e input_file output_hocr language engine_mode
    tessconfig pagesegmode w args_tesseract r f' :
  hocr_call e input_file output_hocr language engine_mode tessconfig
            pagesegmode w args_tesseract r f' ->
  let call := generate_hocr e input_file output_hocr language engine_mode
                            tessconfig pagesegmode w in
  let started := log w ++ [RecArgs Debug args_tesseract] in
  let logged output :=
    started ++ omap (classify (log_prefix e input_file)) (splitlines output) in
  (forall iw ih q,
     read_path f' input_file = Return (FImage iw ih) ->
     0 <= iw -> 0 <= ih ->
     resolve_path f' output_hocr = At q ->
     let null_doc := <[q := FText (HOCR_TEMPLATE iw ih)]> f' in
     (r = TimedOut ->
      call = (Return tt,
              World null_doc
                    (started ++ [Rec Warning
                       (log_prefix e input_file
                        +:+ " took too long to OCR - skipping")])))
     /\ (forall output, r = Failed output ->
         contains param_marker output = false ->
         contains too_large_marker output = true ->
         call = (Return tt, World null_doc (logged output)))
     /\ page_box (HOCR_TEMPLATE iw ih) = Some (0, 0, iw, ih))
  /\ (forall output, r = Failed output ->
      contains param_marker output = true ->
      call = (Raise TesseractConfigError, World f' (logged output)))
  /\ (forall output, r = Failed output ->
      contains param_marker output = false ->
      contains too_large_marker output = false ->
      call = (Raise (CalledProcessError output), World f' (logged output))).
Proof.
  intros Hcall call started logged. subst call started logged.
  rewrite (generate_hocr_run _ _ _ _ _ _ _ _ _ _ _ Hcall).
  unfold param_marker, too_large_marker. split; [| split].
  - intros iw ih q Himg Hw Hh Hq. cbv zeta. split; [| split].
    + intros ->. unfold bind, page_timedout, emit. cbn [fs log].
      now apply null_hocr_run.
    + intros output -> Hp Hl. unfold bind.
      rewrite tesseract_log_output_run, Hp, Hl. cbn [fs log].
      now apply null_hocr_run.
    + now apply page_box_template.
  - intros output -> Hp. unfold bind.
    now rewrite tesseract_log_output_run, Hp.
  - intros output -> Hp Hl. unfold bind.
    now rewrite tesseract_log_output_run, Hp, Hl.
Qed.

Lemma generate_hocr_recovery_witness :
  generate_hocr (Sample.env_of "3.04.00" TimedOut) "000007.png"
                "000007.hocr" ["eng"] None [] None Sample.w_image
  = (Return tt,
     World (<["000007.hocr" := FText (HOCR_TEMPLATE 640 480)]>
              {["000007.png" := FImage 640 480]})
           [RecArgs Debug Sample.hocr_argv;
            Rec Warning "   7: [tesseract]  took too long to OCR - skipping"])
  /\ page_box (HOCR_TEMPLATE 640 480) = Some (0, 0, 640, 480)
  /\ generate_hocr
       (Sample.env_of "3.04.00"
          (Failed "read_params_file: parameter not found: foo"))
       "000007.png" "000007.hocr" ["eng"] None [] None Sample.w_image
     = (Raise TesseractConfigError,
        World {["000007.png" := FImage 640 480]}
              [RecArgs Debug Sample.hocr_argv;
               Rec Error
                 "   7: [tesseract] read_params_file: parameter not found: foo"]).
Proof.
  assert (Hcall : hocr_call (Sample.env_of "3.04.00" TimedOut) "000007.png"
                    "000007.hocr" ["eng"] None [] None Sample.w_image
                    Sample.hocr_argv TimedOut
                    {["000007.png" := FImage 640 480]}).
  { exists ["tesseract"; "-l"; "eng"], ["tesseract"; "-l"; "eng"].
    now repeat split. }
  split; [| split].
  - refine (proj1 (proj1 (generate_hocr_recovery _ _ _ _ _ _ _ _ _ _ _ Hcall)
              640 480 "000007.hocr" eq_refl _ _ eq_refl) eq_refl); lia.
  - refine (proj2 (proj2 (proj1 (generate_hocr_recovery _ _ _ _ _ _ _ _ _ _ _
              Hcall) 640 480 "000007.hocr" eq_refl _ _ eq_refl))); lia.
  - refine (proj1 (proj2 (generate_hocr_recovery
      (Sample.env_of "3.04.00"
         (Failed "read_params_file: parameter not found: foo"))
      "000007.png" "000007.hocr" ["eng"]
      None [] None Sample.w_image Sample.hocr_argv
      (Failed "read_params_file: parameter not found: foo")
      {["000007.png" := FImage 640 480]} _))
      "read_params_file: parameter not found: foo" eq_refl eq_refl).
    exists ["tesseract"; "-l"; "eng"], ["tesseract"; "-l"; "eng"].
    now repeat split.
Defined.

(** C3, as stated, fails twice.  An output with [parameter not found] but
    without [read_params_file: ] before it is not a configuration error:
    the error of the call is raised again.  And an output with both
    markers is a configuration error, not a null document. *)
Lemma generate_hocr_recovery_counterexample :
  contains "parameter not found" "Error: parameter not found" = true
  /\ fst (generate_hocr
            (Sample.env_of "3.04.00" (Failed "Error: parameter not found"))
            "000007.png" "000007.hocr" ["eng"] None [] None Sample.w_image)
     = Raise (CalledProcessError "Error: parameter not found")
  /\ contains "Image too large"
       "Image too large; read_params_file: parameter not found" = true
  /\ fst (generate_hocr
            (Sample.env_of "3.04.00"
               (Failed "Image too large; read_params_file: parameter not found"))
            "000007.png" "000007.hocr" ["eng"] None [] None Sample.w_image)
     = Raise TesseractConfigError.
Proof. repeat split; reflexivity. Qed.

Lemma rename_run f lg src dst x :
  f !! src = Some x ->
  os_rename src dst (World f lg)
  = (Return tt, World (rename_entry f src dst) lg).
Proof.
  intros H. unfold os_rename, rename_entry, bind, get_fs, put_fs.
  cbn [fs log]. now rewrite H.
Qed.

(** The first step of [normalize_hocr]: the engine's document is brought
    to [badxml]. *)
Lemma normalize_hocr_moves f lg badxml output_hocr :
  normalize_hocr badxml output_hocr (World f lg)
  = (do _ <- open_read badxml;
     do _ <- open_write output_hocr;
     do lines <- read_lines badxml;
     write_file output_hocr (FText (concat_lines (map regex_sub lines))))
      (World (moved f badxml) lg).
Proof.
  unfold normalize_hocr, moved.
  unfold bind at 1. unfold get_fs at 1. cbn [fs log].
  destruct (exists_path f (badxml +:+ ".html")) eqn:Hh.
  - destruct (exists_path_lookup _ _ Hh) as [x Hx].
    unfold bind at 1. now rewrite (rename_run _ _ _ _ _ Hx).
  - destruct (exists_path f (badxml +:+ ".hocr")) eqn:Hc.
    + destruct (exists_path_lookup _ _ Hc) as [x Hx].
      unfold bind at 1. now rewrite (rename_run _ _ _ _ _ Hx).
    + reflexivity.
Qed.





End HocrRecovery.

(** ** Recovery in [generate_pdf] (claims C4 and C8) *)

Module PdfRecovery.
Import Text Num Tesseract Files Hocr Generate Statements.
Import TextFacts LogFacts FilesFacts HocrRecovery.










End PdfRecovery.

(** * Further properties of the module *)

(** ** The version probe and the arguments *)

Module Invocation.
Import Text Num Tesseract Files Generate Statements MoreStatements.
Import TextFacts LogFacts.

Lemma until_newline_append v rest :
  no_newline v = true ->
  rest = "" \/ (exists t, rest = String "010" t) ->
  until_newline (v +:+ rest) = v.
Proof.
  intros Hv Hrest. induction v as [|x v IH]; simpl in *.
  - destruct Hrest as [-> | [t ->]]; reflexivity.
  - apply andb_true_iff in Hv as [Hx Hv]. apply negb_true_iff in Hx.
    now rewrite Hx, (IH Hv).
Qed.

Lemma until_newline_free s : no_newline (until_newline s) = true.
Proof.
  induction s as [|x s IH]; simpl; [reflexivity |].
  destruct (code x =? 10)%N eqn:Hx; simpl; [reflexivity |].
  now rewrite Hx, IH.
Qed.

Lemma version_shape (e : env) (v : string) :
  version e = Return v -> v <> "" /\ no_newline v = true.
Proof.
  unfold version. destruct (probe_version e) as [out | out]; [| discriminate].
  destruct (startswith out "tesseract"); [| discriminate].
  destruct (drop 9 out) as [|c r]; [discriminate |].
  destruct (is_space c); [| discriminate].
  pose proof (until_newline_free r) as Hfree.
  destruct (until_newline r) as [|x t] eqn:Hu; [discriminate |].
  intros H. inversion H; subst. split; [discriminate | exact Hfree].
Qed.

(** [version] reads the rest of the first line after the word
    [tesseract] and one white space character; what it returns is never
    empty and holds no line feed; a failed probe is a missing
    dependency. *)
Theorem version_first_line (e : env) :
  (forall c v rest,
     probe_version e = CmdOk ("tesseract" +:+ String c (v +:+ rest)) ->
     is_space c = true -> v <> "" -> no_newline v = true ->
     rest = "" \/ (exists t, rest = String "010" t) ->
     version e = Return v)
  /\ (forall v, version e = Return v -> v <> "" /\ no_newline v = true)
  /\ (forall output, probe_version e = CmdFail output ->
      version e = Raise MissingDependencyError).
Proof.
  unfold version. split; [| split].
  - intros c v rest Hp Hc Hne Hv Hrest. rewrite Hp. simpl. rewrite Hc.
    rewrite (until_newline_append _ _ Hv Hrest).
    destruct v; [congruence | reflexivity].
  - apply version_shape.
  - intros output Hp. now rewrite Hp.
Qed.

Lemma version_first_line_witness :
  version (Sample.env_params "3.04.01
 leptonica-1.72" "") = Return "3.04.01".
Proof.
  refine (proj1 (version_first_line
    (Sample.env_params "3.04.01
 leptonica-1.72" "")) " "%char "3.04.01" "
 leptonica-1.72" eq_refl eq_refl _ eq_refl _).
  - discriminate.
  - right. now eexists.
Defined.

(** [v4] looks at the first character of the version only: it holds when
    that character is ['4'] or comes after it. *)
Theorem v4_first_character (e : env) (v : string) :
  version e = Return v ->
  exists c t, v = String c t /\ v4 e = Return (52 <=? code c)%N.
Proof.
  intros Hv. destruct (version_shape e v Hv) as [Hne _].
  destruct v as [|c t]; [congruence |]. exists c, t. split; [reflexivity |].
  unfold v4. rewrite Hv. unfold rbind. f_equal.
  change (str_ge (String c t) "4")
    with (if (52 <? code c)%N then true
          else if (code c <? 52)%N then false else str_ge t "").
  assert (Ht : str_ge t "" = true) by now destruct t.
  rewrite Ht.
  destruct (52 <? code c)%N eqn:H1.
  - symmetry. apply N.leb_le. apply N.ltb_lt in H1. lia.
  - destruct (code c <? 52)%N eqn:H2; symmetry.
    + apply N.leb_gt. now apply N.ltb_lt in H2.
    + apply N.leb_le. now apply N.ltb_ge in H2.
Qed.

Lemma v4_first_character_witness :
  exists c t, "10.0" = String c t
              /\ v4 (Sample.env_of "10.0" TimedOut) = Return (52 <=? code c)%N.
Proof. exact (v4_first_character (Sample.env_of "10.0" TimedOut) "10.0" eq_refl). Defined.

(** The arguments by version: below ['4'] the engine mode is left out and
    the page segmentation mode goes with [-psm]; from ['4'] on the engine
    mode goes with [--oem] and the page segmentation mode with [--psm]. *)
Theorem arguments_by_version (e : env) (v : string) (languages : list string)
    (m p : Z) :
  version e = Return v ->
  rbind (tess_base_args e languages (Some m))
        (fun base => with_pagesegmode e base (Some p))
  = Return ([program e] ++ language_args languages
            ++ (if str_ge v "4"
                then ["--oem"; str_of_int m; "--psm"; str_of_int p]
                else ["-psm"; str_of_int p])).
Proof.
  intros Hv. unfold tess_base_args, with_pagesegmode, psm, v4, language_args.
  rewrite Hv. simpl.
  destruct (str_ge v "4"), languages; simpl; reflexivity.
Qed.

Lemma arguments_by_version_witness :
  rbind (tess_base_args (Sample.env_of "3.04.01" TimedOut) ["eng"; "deu"]
                        (Some 1))
        (fun base => with_pagesegmode (Sample.env_of "3.04.01" TimedOut)
                                      base (Some 6))
  = Return ["tesseract"; "-l"; "eng+deu"; "-psm"; "6"]
  /\ rbind (tess_base_args (Sample.env_of "4.0.0" TimedOut) ["eng"; "deu"]
                           (Some 1))
           (fun base => with_pagesegmode (Sample.env_of "4.0.0" TimedOut)
                                         base (Some 6))
     = Return ["tesseract"; "-l"; "eng+deu"; "--oem"; "1"; "--psm"; "6"].
Proof.
  split.
  - exact (arguments_by_version (Sample.env_of "3.04.01" TimedOut) "3.04.01"
             ["eng"; "deu"] 1 6 eq_refl).
  - exact (arguments_by_version (Sample.env_of "4.0.0" TimedOut) "4.0.0"
             ["eng"; "deu"] 1 6 eq_refl).
Defined.

(** The version is looked up only where a flag depends on it.
    [get_orientation] always needs it, [generate_hocr] and [generate_pdf]
    need it when an engine mode or a page segmentation mode is given:
    there a failing probe ends the call before anything is logged, run or
    written.  Without both modes the two generators do not depend on the
    probe at all. *)
Theorem version_probe_use (e : env) (input_file skip_pdf output : string)
    (language : list string) (engine_mode : option Z) (text_only : bool)
    (tessconfig : list string) (pagesegmode : option Z) (w : world) :
  (forall x, version e = Raise x ->
     get_orientation e input_file language engine_mode w = (Raise x, w)
     /\ (is_Some engine_mode \/ is_Some pagesegmode ->
         generate_hocr e input_file output language engine_mode tessconfig
                       pagesegmode w = (Raise x, w)
         /\ generate_pdf e input_file skip_pdf output language engine_mode
                         text_only tessconfig pagesegmode w = (Raise x, w)))
  /\ (forall probe,
        generate_hocr (with_version e probe) input_file output language None
                      tessconfig None w
        = generate_hocr e input_file output language None tessconfig None w
        /\ generate_pdf (with_version e probe) input_file skip_pdf output
                        language None text_only tessconfig None w
           = generate_pdf e input_file skip_pdf output language None
                          text_only tessconfig None w).
Proof.
  split.
  - intros x Hx.
    assert (Hpsm : psm e = Raise x) by (unfold psm, v4; now rewrite Hx).
    assert (Hbase : forall m, tess_base_args e language (Some m) = Raise x)
      by (intros m; unfold tess_base_args, v4; now rewrite Hx).
    split.
    + unfold get_orientation, bind, lift. rewrite Hpsm.
      destruct engine_mode as [m|]; [now rewrite Hbase |].
      unfold tess_base_args. now destruct language.
    + intros Hmode. unfold generate_hocr, generate_pdf, bind, lift.
      destruct engine_mode as [m|]; [now rewrite Hbase |].
      destruct Hmode as [[m Hm] | [p ->]]; [discriminate |].
      unfold with_pagesegmode, tess_base_args. rewrite Hpsm.
      now destruct language.
  - intros probe. split; reflexivity.
Qed.

Lemma version_probe_use_witness :
  get_orientation (Sample.env_params "" "") "000007.png" ["eng"] None
                  Sample.w_image
  = (Raise AttributeError, Sample.w_image)
  /\ generate_pdf (Sample.env_params "" "") "000007.png" "000007.skip.pdf"
                  "000007.pdf" ["eng"] None false [] (Some 3) Sample.w_pdf
     = (Raise AttributeError, Sample.w_pdf).
Proof.
  split.
  - exact (proj1 (proj1 (version_probe_use (Sample.env_params "" "")
      "000007.png" "000007.skip.pdf" "000007.pdf" ["eng"] None false []
      None Sample.w_image) AttributeError eq_refl)).
  - refine (proj2 (proj2 (proj1 (version_probe_use (Sample.env_params "" "")
      "000007.png" "000007.skip.pdf" "000007.pdf" ["eng"] None false []
      (Some 3) Sample.w_pdf) AttributeError eq_refl) _)).
    right. now eexists.
Defined.

End Invocation.

(** ** Parsing: language listing and orientation output *)

Module Parsing.
Import Text Num Tesseract Listing Statements MoreStatements.
Import TextFacts LogFacts Orientation.

Lemma lstrip_cases s :
  lstrip s = "" \/ exists c t, lstrip s = String c t /\ is_space c = false.
Proof.
  induction s as [|x s IH]; simpl; [now left |].
  destruct (is_space x) eqn:Hx; [exact IH |]. right. now exists x, s.
Qed.

Lemma rstrip_head c s :
  is_space c = false -> exists t, rstrip (String c s) = String c t.
Proof.
  intros Hc. simpl. rewrite Hc. destruct (rstrip s); now eexists.
Qed.

Lemma rstrip_idem s : rstrip (rstrip s) = rstrip s.
Proof.
  induction s as [|x s IH]; [reflexivity |]. simpl.
  destruct (rstrip s) as [|y r] eqn:Hr.
  - destruct (is_space x) eqn:Hx; [reflexivity |]. simpl. now rewrite Hx.
  - change (rstrip (String x (String y r)))
      with (match rstrip (String y r) with
            | EmptyString =>
                if is_space x then EmptyString else String x EmptyString
            | r' => String x r'
            end).
    now rewrite IH.
Qed.

(** What [strip] returns has no white space left to strip. *)
Lemma strip_idem s : strip (strip s) = strip s.
Proof.
  unfold strip.
  assert (Hl : lstrip (rstrip (lstrip s)) = rstrip (lstrip s)).
  { destruct (lstrip_cases s) as [-> | (c & t & -> & Hc)]; [reflexivity |].
    destruct (rstrip_head c t Hc) as [t' ->]. simpl. now rewrite Hc. }
  rewrite Hl. apply rstrip_idem.
Qed.

Lemma splitlines_one_line s :
  one_line s = true ->
  splitlines s = match s with EmptyString => [] | _ => [s] end.
Proof.
  induction s as [|x s IH]; [reflexivity |]. simpl. intros H.
  apply andb_true_iff in H as [Hx Hs]. apply negb_true_iff in Hx.
  assert (H13 : (code x =? 13)%N = false).
  { destruct (code x =? 13)%N eqn:E; [| reflexivity].
    apply N.eqb_eq in E. unfold is_linebreak in Hx. rewrite E in Hx.
    discriminate. }
  rewrite H13, Hx, (IH Hs). now destruct s.
Qed.

Lemma splitlines_line a b :
  one_line a = true ->
  splitlines (a +:+ String "010" b) = a :: splitlines b.
Proof.
  induction a as [|x a IH]; [reflexivity |]. simpl. intros H.
  apply andb_true_iff in H as [Hx Ha]. apply negb_true_iff in Hx.
  assert (H13 : (code x =? 13)%N = false).
  { destruct (code x =? 13)%N eqn:E; [| reflexivity].
    apply N.eqb_eq in E. unfold is_linebreak in Hx. rewrite E in Hx.
    discriminate. }
  now rewrite H13, Hx, (IH Ha).
Qed.

Lemma splitlines_terminated ls :
  Forall (fun l => one_line l = true) ls -> splitlines (terminated ls) = ls.
Proof.
  induction 1 as [|l ls Hl _ IH]; [reflexivity |]. simpl.
  now rewrite (splitlines_line _ _ Hl), IH.
Qed.

(** [languages] reads a listing back: for a heading line followed by one
    name per line, each without white space around it, the result is the
    set of the names.  A listing of one line, or an empty one, gives no
    language; every name returned is stripped; a failed probe is a missing
    dependency. *)
Theorem languages_of_listing :
  (forall header names,
     one_line header = true ->
     Forall (fun n => one_line n = true) names ->
     Forall (fun n => strip n = n) names ->
     languages (CmdOk (terminated (header :: names)))
     = Return (list_to_set names))
  /\ (forall header, one_line header = true ->
      languages (CmdOk header) = Return ∅)
  /\ (forall listing langs x,
        languages listing = Return langs -> x ∈ langs -> strip x = x)
  /\ (forall output, languages (CmdFail output) = Raise MissingDependencyError).
Proof.
  split; [| split; [| split]].
  - intros header names Hh Hn Hs. unfold languages.
    rewrite splitlines_terminated by now constructor. simpl.
    do 2 f_equal. induction Hs as [|n ns Hn' _ IH]; [reflexivity |].
    simpl. rewrite Hn'. f_equal. apply IH. now inversion Hn.
  - intros header Hh. unfold languages.
    rewrite (splitlines_one_line _ Hh). now destruct header.
  - intros [out | out] langs x H Hx; [| discriminate].
    inversion H; subst. apply elem_of_list_to_set in Hx.
    apply list_elem_of_fmap in Hx as (y & -> & _). apply strip_idem.
  - reflexivity.
Qed.

Lemma languages_of_listing_witness :
  languages (CmdOk "List of available languages (2):
deu
eng
") = Return (list_to_set ["deu"; "eng"]).
Proof.
  refine (proj1 languages_of_listing "List of available languages (2):"
            ["deu"; "eng"] eq_refl _ _); repeat constructor.
Defined.

Lemma split_length sep n s :
  length (split sep n s) = S (Nat.min n (count_char sep s)).
Proof.
  revert n; induction s as [|x s IH]; intros n; [simpl; lia |].
  destruct n as [|m]; [reflexivity |]. simpl.
  destruct (Ascii.eqb x sep).
  - simpl. now rewrite IH.
  - specialize (IH (S m)). simpl.
    destruct (split sep (S m) s) as [|p ps]; simpl in *; lia.
Qed.

Lemma split_no_sep sep n s :
  count_char sep s = O -> split sep n s = [s].
Proof.
  revert n; induction s as [|x s IH]; intros n H; [reflexivity |].
  destruct n as [|m]; [reflexivity |]. simpl in *.
  destruct (Ascii.eqb x sep); [discriminate |]. now rewrite (IH _ H).
Qed.

Lemma split_at_sep sep m s t :
  count_char sep s = O ->
  split sep (S m) (s +:+ String sep t) = s :: split sep m t.
Proof.
  intros H. induction s as [|x s IH]; simpl in *.
  - now rewrite Ascii.eqb_refl.
  - destruct (Ascii.eqb x sep); [discriminate |]. now rewrite (IH H).
Qed.

(** The mapping [osd] takes a line exactly when the stripped line has one
    colon: a line with none, or with two or more, is passed over.  A line
    with one colon sets the stripped text before the colon to the stripped
    text after it. *)
Theorem osd_takes_one_colon_lines (line : string) (rest : list string)
    (osd : gmap string string) :
  (count_char ":" (strip line) <> 1%nat ->
   parse_osd (line :: rest) osd = parse_osd rest osd)
  /\ (forall k v, count_char ":" k = O -> count_char ":" v = O ->
      strip line = k +:+ String ":" v ->
      parse_osd (line :: rest) osd
      = parse_osd rest (<[strip k := strip v]> osd)).
Proof.
  split.
  - intros Hc. simpl.
    pose proof (split_length ":" 2 (strip line)) as Hl.
    destruct (split ":" 2 (strip line)) as [|a [|b [|c l]]]; try reflexivity.
    cbn [length] in Hl. exfalso. apply Hc. lia.
  - intros k v Hk Hv Heq. simpl.
    now rewrite Heq, (split_at_sep _ _ _ _ Hk), (split_no_sep _ _ _ Hv).
Qed.

Lemma osd_takes_one_colon_lines_witness :
  parse_osd ["Script: Latin: 3"; "Rotate: 270"] ∅
  = parse_osd ["Rotate: 270"] ∅
  /\ parse_osd [" Orientation confidence : 2.5 "] ∅
     = parse_osd [] (<[strip "Orientation confidence " := strip " 2.5"]> ∅).
Proof.
  split.
  - apply (proj1 (osd_takes_one_colon_lines "Script: Latin: 3"
                    ["Rotate: 270"] ∅)). discriminate.
  - apply (proj2 (osd_takes_one_colon_lines " Orientation confidence : 2.5 "
                    [] ∅) "Orientation confidence " " 2.5");
      reflexivity.
Defined.

(** Every key and every value of the mapping is stripped: no key of
    [osd] starts or ends with white space. *)
Theorem osd_entries_stripped (stdout k v : string) :
  osd_of stdout !! k = Some v -> strip k = k /\ strip v = v.
Proof.
  unfold osd_of.
  assert (H : forall lines (osd : gmap string string),
            (forall k v, osd !! k = Some v -> strip k = k /\ strip v = v) ->
            forall k v, parse_osd lines osd !! k = Some v ->
                        strip k = k /\ strip v = v).
  { induction lines as [|l lines IH]; intros osd Hosd; [exact Hosd |].
    simpl. destruct (split ":" 2 (strip l)) as [|a [|b [|c t]]];
      try (apply IH; exact Hosd).
    apply IH. intros k' v' Hl.
    destruct (decide (strip a = k')) as [<- | Hne].
    - rewrite lookup_insert_eq in Hl. inversion Hl; subst.
      split; apply strip_idem.
    - rewrite lookup_insert_ne in Hl by exact Hne. now apply Hosd. }
  apply H. intros k' v' Hl. rewrite lookup_empty in Hl. discriminate.
Qed.

Lemma osd_entries_stripped_witness :
  strip "Orientation confidence" = "Orientation confidence"
  /\ strip "2.5" = "2.5".
Proof.
  exact (osd_entries_stripped " Orientation confidence : 2.5 "
           "Orientation confidence" "2.5" eq_refl).
Defined.

(** The angle of a result: with the key [Orientation] it is
    [(-raw) mod 360] and lies from 0 to 359; without it the raw angle is
    handed on as it is, whatever its value. *)
Theorem orientation_angle_range e input_file language engine_mode w stdout
    f' oc w' :
  engine_call e input_file language engine_mode w (Completed stdout) f' ->
  get_orientation e input_file language engine_mode w = (Return oc, w') ->
  exists raw,
    raw_angle (osd_of stdout) = Some raw
    /\ (has_key "Orientation" (osd_of stdout) = true ->
        angle oc = (- raw) mod 360 /\ 0 <= angle oc < 360)
    /\ (has_key "Orientation" (osd_of stdout) = false -> angle oc = raw).
Proof.
  intros Hcall Hret.
  rewrite (get_orientation_run _ _ _ _ _ _ _ Hcall) in Hret.
  destruct (raw_angle (osd_of stdout)) as [raw|] eqn:Hraw.
  - exists raw. split; [reflexivity |].
    rewrite (orientation_raw_ok _ _ Hraw) in Hret. simpl in Hret.
    destruct (has_key "Orientation" (osd_of stdout)),
             (has_key "Rotate" (osd_of stdout));
      try discriminate;
      destruct (read_confidence (osd_of stdout)); try discriminate;
      inversion Hret; subst; simpl; split; try discriminate; intros _;
      try reflexivity.
    split; [reflexivity |]. apply Z.mod_pos_bound. lia.
  - rewrite (orientation_raw_error _ Hraw) in Hret. discriminate.
Qed.

Lemma orientation_angle_range_witness :
  exists raw,
    raw_angle (osd_of "Orientation in degrees: 450
Rotate: 270") = Some raw
    /\ (has_key "Orientation" (osd_of "Orientation in degrees: 450
Rotate: 270") = true ->
        angle (mkOC 450 (PFloat (FDec false 0 0))) = (- raw) mod 360
        /\ 0 <= angle (mkOC 450 (PFloat (FDec false 0 0))) < 360)
    /\ (has_key "Orientation" (osd_of "Orientation in degrees: 450
Rotate: 270") = false ->
        angle (mkOC 450 (PFloat (FDec false 0 0))) = raw).
Proof.
  refine (orientation_angle_range
    (Sample.env_of "3.04.01" (Completed "Orientation in degrees: 450
Rotate: 270")) "000007.png" ["eng"] None Sample.w0 "Orientation in degrees: 450
Rotate: 270" ∅ (mkOC 450 (PFloat (FDec false 0 0))) Sample.w0 _ eq_refl).
  exists ["tesseract"; "-l"; "eng"], "-psm". now repeat split.
Defined.

End Parsing.

(** ** Logging: what the classifier keeps, and the width of the prefix *)

Module Logging.
Import Text Num Tesseract Statements MoreStatements TextFacts LogFacts.

(** The classifier loses no line but the banner and [pixReadMem] lines:
    it emits one record for every other line, none of them at the debug
    level, and it leaves the files and the earlier records alone. *)
Theorem log_output_keeps_lines (e : env) (stdout input_file : string)
    (w : world) :
  exists new : list log_record,
    tesseract_log_output e stdout input_file w
    = (Return tt, World (fs w) (log w ++ new))
    /\ length new = length (List.filter kept_line (splitlines stdout))
    /\ Forall (fun r => exists lvl msg, r = Rec lvl msg /\ lvl <> Debug) new.
Proof.
  eexists. split; [apply tesseract_log_output_run |]. split.
  - induction (splitlines stdout) as [|l ls IH]; [reflexivity |].
    cbn [omap list_omap List.filter]. unfold kept_line at 1, classify at 1.
    destruct (startswith l "Tesseract Open Source"); [exact IH |].
    destruct (startswith l "Warning in pixReadMem"); [exact IH |].
    simpl.
    repeat match goal with
           | |- context [if ?b then _ else _] => destruct b
           end; simpl; now rewrite IH.
  - apply Forall_forall. intros r Hr.
    apply list_elem_of_omap in Hr as (line & _ & Hc). unfold classify in Hc.
    repeat match type of Hc with
           | (if ?b then _ else _) = _ => destruct b
           end; try discriminate; inversion Hc; subst;
      do 2 eexists; (split; [reflexivity | discriminate]).
Qed.

Lemma format_4d_width (n : Z) :
  0 <= n < 10000 -> String.length (format_4d n) = 4%nat.
Proof.
  intros Hn.
  assert (Hall : forallb (fun k => Nat.eqb (String.length
                                              (format_4d (Z.of_nat k))) 4)
                         (seq 0 (Z.to_nat 10000)) = true)
    by (vm_compute; reflexivity).
  rewrite forallb_forall in Hall.
  specialize (Hall (Z.to_nat n)). rewrite Z2Nat.id in Hall by lia.
  apply Nat.eqb_eq, Hall, in_seq. lia.
Qed.

(** For the page numbers 0 to 9999 the prefix of a log message is 18
    characters wide, so the messages of these pages line up. *)
Theorem log_prefix_width (e : env) (input_file : string) :
  0 <= page_number e input_file < 10000 ->
  String.length (log_prefix e input_file) = 18%nat.
Proof.
  intros Hn. unfold log_prefix.
  now rewrite length_append, (format_4d_width _ Hn).
Qed.

Lemma log_prefix_width_witness :
  String.length (log_prefix (Sample.env_of "3.04.01" TimedOut) "000007.png")
  = 18%nat.
Proof.
  apply (log_prefix_width (Sample.env_of "3.04.01" TimedOut) "000007.png").
  simpl. lia.
Defined.

End Logging.

(** ** The repair: documents without the defect, and repairing twice *)

Module Repair.
Import Text Files Hocr Generate Statements MoreStatements.
Import TextFacts HocrFacts.

Lemma startswith_mono a b p :
  startswith a p = true -> startswith (a +:+ b) p = true.
Proof.
  revert a; induction p as [|x p IH]; intros a H; [reflexivity |].
  destruct a as [|y a]; [discriminate |]. simpl in *.
  apply andb_true_iff in H as [Hx Hp]. now rewrite Hx, (IH _ Hp).
Qed.

Lemma contains_mono p a b :
  contains p a = true -> contains p (a +:+ b) = true.
Proof.
  induction a as [|y a IH]; intros H.
  - simpl in H. rewrite orb_false_r in H. destruct p; [| discriminate].
    now destruct b.
  - simpl in *. apply orb_true_iff in H as [H | H].
    + change (String y (a +:+ b)) with (String y a +:+ b).
      now rewrite (startswith_mono _ b _ H).
    + rewrite (IH H). apply orb_true_r.
Qed.

Lemma contains_suffix p a b :
  contains p b = true -> contains p (a +:+ b) = true.
Proof.
  intros H. induction a as [|y a IH]; [exact H |].
  simpl. rewrite IH. apply orb_true_r.
Qed.

(** A line without the opening of the pattern is left as it is. *)
Lemma regex_sub_without_title s :
  contains title_open s = false -> regex_sub s = s.
Proof.
  induction s as [|c s IH]; intros H; rewrite regex_sub_unfold;
    [reflexivity |].
  change (contains title_open (String c s))
    with (startswith (String c s) title_open || contains title_open s) in H.
  apply orb_false_iff in H as [Hp Hc].
  unfold match_title. rewrite Hp. now rewrite (IH Hc).
Qed.

(** The lines of a text, put together again, are the text. *)
Lemma concat_file_lines s : concat_lines (file_lines s) = s.
Proof.
  induction s as [|c s IH]; [reflexivity |]. simpl.
  destruct (code c =? 10)%N.
  - simpl. now rewrite IH.
  - destruct (file_lines s) as [|l ls]; simpl in *; now rewrite <- IH.
Qed.

Lemma file_lines_parts s l :
  In l (file_lines s) -> exists pre post, s = pre +:+ l +:+ post.
Proof.
  revert l; induction s as [|c s IH]; intros l Hin; [destruct Hin |].
  simpl in Hin. destruct (code c =? 10)%N.
  - destruct Hin as [<- | Hin].
    + now exists "", s.
    + destruct (IH _ Hin) as (pre & post & ->). now exists (String c pre), post.
  - pose proof (concat_file_lines s) as Hcat.
    destruct (file_lines s) as [|l0 ls]; simpl in Hin.
    + destruct Hin as [<- | []]. now exists "", s.
    + destruct Hin as [<- | Hin].
      * exists "", (concat_lines ls). simpl in *. now rewrite Hcat.
      * destruct (IH l (or_intror Hin)) as (pre & post & ->).
        now exists (String c pre), post.
Qed.

(** A document in which the text [title='image `] does not occur is
    copied as it is, up to the translation of line ends on reading. *)
Theorem repair_keeps_sound_document (content : string) :
  contains title_open (universal_newlines content) = false ->
  repaired content = universal_newlines content.
Proof.
  intros H. unfold repaired.
  rewrite <- (concat_file_lines (universal_newlines content)) at 2.
  f_equal. rewrite <- (map_id (file_lines _)) at 2.
  apply map_ext_in. intros l Hl. apply regex_sub_without_title.
  destruct (contains title_open l) eqn:Hc; [| reflexivity].
  destruct (file_lines_parts _ _ Hl) as (pre & post & Heq).
  rewrite Heq in H. rewrite contains_suffix in H; [discriminate |].
  now apply contains_mono.
Qed.

Lemma repair_keeps_sound_document_witness :
  repaired (qq "<div class='ocr_page' title=`bbox 0 0 9 9`>
</div>
") = universal_newlines (qq "<div class='ocr_page' title=`bbox 0 0 9 9`>
</div>
").
Proof.
  apply (repair_keeps_sound_document
           (qq "<div class='ocr_page' title=`bbox 0 0 9 9`>
</div>
")). reflexivity.
Defined.

(** A text all of whose matches hold the placeholder is a fixed point of
    the substitution. *)
Lemma regex_sub_fixed t :
  (forall k name rest,
     match_title (drop k t) = Some (name, rest) -> name = " ") ->
  regex_sub t = t.
Proof.
  funelim (regex_sub t); intros Hall; [reflexivity | |].
  - clear Heqcall H0.
    pose proof (Hall O _ _ e) as Hname. subst s.
    apply match_title_inv in e as [Heq _]. rewrite Heq in *.
    rewrite H.
    + eval_titles. reflexivity.
    + intros k name rest' Hk. apply (Hall (17 + k)%nat name rest').
      eval_titles. exact Hk.
  - f_equal. apply H. intros k name rest Hk.
    now apply (Hall (S k) name rest).
Qed.

(** Repairing a line twice is repairing it once. *)
Theorem regex_sub_idempotent (s : string) :
  regex_sub (regex_sub s) = regex_sub s.
Proof.
  apply regex_sub_fixed. intros k name rest. apply regex_sub_clean.
Qed.

End Repair.

(** ** Edges of [generate_hocr] *)

Module HocrEdges.
Import Text Num Tesseract Files Hocr Generate Statements MoreStatements.
Import TextFacts LogFacts HocrFacts FilesFacts HocrRecovery.


Lemma read_path_none f p :
  f !! p = None -> read_path f p = Raise (FileNotFoundError p).
Proof.
  intros H. unfold read_path, resolve_path.
  rewrite resolve_plain, H; [reflexivity |]. intros t. now rewrite H.
Qed.

Lemma exists_path_none f p : f !! p = None -> exists_path f p = false.
Proof. intros H. unfold exists_path. now rewrite (read_path_none _ _ H). Qed.

(** When the engine succeeds but leaves no document, neither at
    [badxml.html], nor at [badxml.hocr], nor at [badxml], the call ends
    in [FileNotFoundError] and writes nothing: the files stay as the
    engine left them. *)
Theorem generate_hocr_missing_document e input_file output_hocr language
    engine_mode tessconfig pagesegmode w args_tesseract stdout f' :
  let badxml := splitext_root output_hocr +:+ ".badxml" in
  hocr_call e input_file output_hocr language engine_mode tessconfig
            pagesegmode w args_tesseract (Completed stdout) f' ->
  f' !! (badxml +:+ ".html") = None ->
  f' !! (badxml +:+ ".hocr") = None ->
  f' !! badxml = None ->
  generate_hocr e input_file output_hocr language engine_mode tessconfig
                pagesegmode w
  = (Raise (FileNotFoundError badxml),
     World f' (log w ++ [RecArgs Debug args_tesseract]
               ++ omap (classify (log_prefix e input_file))
                       (splitlines stdout))).
Proof.
  intros badxml Hcall Hh Hc Hb.
  rewrite (generate_hocr_run _ _ _ _ _ _ _ _ _ _ _ Hcall).
  unfold bind at 1. rewrite tesseract_log_output_run. cbn [fs log].
  fold badxml. rewrite normalize_hocr_moves. unfold moved.
  rewrite (exists_path_none _ _ Hh), (exists_path_none _ _ Hc).
  unfold open_read. unfold bind, get_fs. cbn [fs log].
  rewrite (read_path_none _ _ Hb). unfold raise. now rewrite <- app_assoc.
Qed.

Lemma generate_hocr_missing_document_witness :
  generate_hocr (Sample.env_of "3.04.01" (Completed "")) "000007.png"
                "000007.hocr" ["eng"] None [] None Sample.w_image
  = (Raise (FileNotFoundError "000007.badxml"),
     World {["000007.png" := FImage 640 480]}
           ([] ++ [RecArgs Debug Sample.hocr_argv] ++ [])).
Proof.
  refine (generate_hocr_missing_document
    (Sample.env_of "3.04.01" (Completed "")) "000007.png" "000007.hocr"
    ["eng"] None [] None Sample.w_image Sample.hocr_argv ""
    {["000007.png" := FImage 640 480]} _ eq_refl eq_refl eq_refl).
  exists ["tesseract"; "-l"; "eng"], ["tesseract"; "-l"; "eng"].
  now repeat split.
Defined.

(** When the output path leads to the very file the intermediate path
    leads to (an output name with the extension [.badxml], or a link to
    the intermediate file), opening it for writing empties the engine's
    document before it is read: the call returns and the file is
    empty. *)
Theorem generate_hocr_output_is_intermediate e input_file output_hocr
    language engine_mode tessconfig pagesegmode w args_tesseract stdout f'
    b x :
  let badxml := splitext_root output_hocr +:+ ".badxml" in
  hocr_call e input_file output_hocr language engine_mode tessconfig
            pagesegmode w args_tesseract (Completed stdout) f' ->
  resolve_path (moved f' badxml) badxml = At b ->
  moved f' badxml !! b = Some x ->
  resolve_path (moved f' badxml) output_hocr = At b ->
  generate_hocr e input_file output_hocr language engine_mode tessconfig
                pagesegmode w
  = (Return tt,
     World (<[b := FText ""]> (moved f' badxml))
           (log w ++ [RecArgs Debug args_tesseract]
            ++ omap (classify (log_prefix e input_file))
                    (splitlines stdout))).
Proof.
  intros badxml Hcall Hb Hx Hq.
  rewrite (generate_hocr_run _ _ _ _ _ _ _ _ _ _ _ Hcall).
  unfold bind at 1. rewrite tesseract_log_output_run. cbn [fs log].
  fold badxml. rewrite <- app_assoc. rewrite normalize_hocr_moves.
  generalize dependent (moved f' badxml). intros g Hb Hx Hq.
  pose proof (resolve_no_link _ _ _ _ Hq) as Hnl.
  assert (Hb' : resolve_path (<[b := FText ""]> g) badxml = At b).
  { unfold resolve_path in *. rewrite resolve_insert; [exact Hb | exact Hnl |].
    discriminate. }
  assert (Hq' : resolve_path (<[b := FText ""]> g) output_hocr = At b).
  { unfold resolve_path in *. rewrite resolve_insert; [exact Hq | exact Hnl |].
    discriminate. }
  assert (Hx' : <[b := FText ""]> g !! b = Some (FText ""))
    by apply lookup_insert_eq.
  unfold open_read, open_write, read_lines, write_file, write_path.
  unfold bind, get_fs, put_fs, ret. cbn [fs log].
  rewrite (read_path_at _ _ _ _ Hb Hx). cbn [fs log]. rewrite Hq.
  cbn [fs log]. rewrite (read_path_at _ _ _ _ Hb' Hx'). cbn [fs log].
  rewrite Hq'. cbn [fs log]. now rewrite insert_insert_eq.
Qed.

Lemma generate_hocr_output_is_intermediate_witness :
  generate_hocr
    (Sample.env_writing (qq "<div title='image `a b.tif`; bbox 0 0 9 9'>"))
    "000007.png" "000007.badxml" ["eng"] None [] None Sample.w_image
  = (Return tt,
     World (<["000007.badxml" := FText ""]>
              (moved (<["000007.badxml.hocr"
                        := FText (qq "<div title='image `a b.tif`; bbox 0 0 9 9'>")]>
                        {["000007.png" := FImage 640 480]})
                     "000007.badxml"))
           ([] ++ [RecArgs Debug Sample.hocr_argv] ++ [])).
Proof.
  refine (generate_hocr_output_is_intermediate
    (Sample.env_writing (qq "<div title='image `a b.tif`; bbox 0 0 9 9'>"))
    "000007.png" "000007.badxml" ["eng"] None [] None Sample.w_image
    Sample.hocr_argv ""
    (<["000007.badxml.hocr"
       := FText (qq "<div title='image `a b.tif`; bbox 0 0 9 9'>")]>
       {["000007.png" := FImage 640 480]})
    "000007.badxml"
    (FText (qq "<div title='image `a b.tif`; bbox 0 0 9 9'>"))
    _ eq_refl eq_refl eq_refl).
  exists ["tesseract"; "-l"; "eng"], ["tesseract"; "-l"; "eng"].
  now repeat split.
Defined.



(** On a timeout the source image is opened before the output: when
    opening it does not give an image, the call raises after the warning
    and nothing is written. *)
Theorem generate_hocr_timeout_needs_image e input_file output_hocr language
    engine_mode tessconfig pagesegmode w args_tesseract f' :
  hocr_call e input_file output_hocr language engine_mode tessconfig
            pagesegmode w args_tesseract TimedOut f' ->
  (forall iw ih, read_path f' input_file <> Return (FImage iw ih)) ->
  exists x,
    generate_hocr e input_file output_hocr language engine_mode tessconfig
                  pagesegmode w
    = (Raise x,
       World f' (log w ++ [RecArgs Debug args_tesseract]
                 ++ [Rec Warning (log_prefix e input_file
                                  +:+ " took too long to OCR - skipping")]))
    /\ (x = FileNotFoundError input_file \/ x = ImageError input_file
        \/ x = LinkLoopError input_file).
Proof.
  intros Hcall Himg.
  rewrite (generate_hocr_run _ _ _ _ _ _ _ _ _ _ _ Hcall).
  unfold bind at 1, page_timedout, emit. cbn [fs log].
  unfold _generate_null_hocr, image_size, bind, get_fs, raise. cbn [fs log].
  rewrite <- app_assoc.
  assert (Hcases : read_path f' input_file
                   = Raise (FileNotFoundError input_file)
                   \/ read_path f' input_file
                      = Raise (LinkLoopError input_file)
                   \/ exists y, read_path f' input_file = Return y).
  { unfold read_path. destruct (resolve_path f' input_file) as [q|];
      [| tauto]. destruct (f' !! q); [right; right; now eexists | tauto]. }
  destruct Hcases as [H | [H | [y H]]]; rewrite H.
  - eexists. split; [reflexivity | tauto].
  - eexists. split; [reflexivity | tauto].
  - destruct y as [t | iw ih | pages | target |];
      try (eexists; split; [reflexivity | tauto]).
    exfalso. now apply (Himg iw ih).
Qed.

Lemma generate_hocr_timeout_needs_image_witness :
  exists x,
    generate_hocr (Sample.env_of "3.04.01" TimedOut) "000007.png"
                  "000007.hocr" ["eng"] None [] None Sample.w0
    = (Raise x,
       World ∅ ([] ++ [RecArgs Debug Sample.hocr_argv]
                ++ [Rec Warning
                      (log_prefix (Sample.env_of "3.04.01" TimedOut)
                                  "000007.png"
                       +:+ " took too long to OCR - skipping")]))
    /\ (x = FileNotFoundError "000007.png" \/ x = ImageError "000007.png"
        \/ x = LinkLoopError "000007.png").
Proof.
  refine (generate_hocr_timeout_needs_image
    (Sample.env_of "3.04.01" TimedOut) "000007.png" "000007.hocr" ["eng"]
    None [] None Sample.w0 Sample.hocr_argv ∅ _ _).
  - exists ["tesseract"; "-l"; "eng"], ["tesseract"; "-l"; "eng"].
    now repeat split.
  - intros iw ih. discriminate.
Defined.

End HocrEdges.

(** ** What the generators leave alone *)

Module Frames.
Import Text Num Tesseract Files Hocr Generate Statements MoreStatements.
Import TextFacts LogFacts HocrFacts FilesFacts HocrRecovery PdfRecovery.

(** A file is opened for writing and written: only the file the path
    leads to changes. *)
Lemma open_write_frame p x f lg k :
  resolve_path f p <> At k ->
  fs (snd ((do _ <- open_write p; write_file p x) (World f lg))) !! k
  = f !! k.
Proof.
  intros Hk. unfold open_write, write_file, write_path, bind, get_fs,
    put_fs, raise. cbn [fs log].
  destruct (resolve_path f p) as [q|] eqn:Hq; cbn [fs log snd];
    [| reflexivity].
  assert (Hne : q <> k) by congruence.
  unfold resolve_path in *. rewrite resolve_insert, Hq.
  - cbn [fs log snd]. now rewrite !lookup_insert_ne by exact Hne.
  - exact (resolve_no_link _ _ _ _ Hq).
  - discriminate.
Qed.

Lemma moved_frame f badxml k :
  k <> badxml -> k <> badxml +:+ ".html" -> k <> badxml +:+ ".hocr" ->
  moved f badxml !! k = f !! k.
Proof.
  intros Hb Hh Hc. unfold moved, rename_entry.
  destruct (exists_path f (badxml +:+ ".html")).
  - destruct (f !! (badxml +:+ ".html")); [| reflexivity].
    rewrite lookup_insert_ne by congruence.
    now rewrite lookup_delete_ne by congruence.
  - destruct (exists_path f (badxml +:+ ".hocr")); [| reflexivity].
    destruct (f !! (badxml +:+ ".hocr")); [| reflexivity].
    rewrite lookup_insert_ne by congruence.
    now rewrite lookup_delete_ne by congruence.
Qed.


Lemma null_hocr_frame output_hocr image f lg p :
  resolve_path f output_hocr <> At p ->
  fs (snd (_generate_null_hocr output_hocr image (World f lg))) !! p = f !! p.
Proof.
  intros Hq. unfold _generate_null_hocr. unfold bind at 1.
  unfold image_size, bind at 1, get_fs, raise, ret. cbn [fs log].
  destruct (read_path f image) as [[t | iw ih | pages | t |] | x];
    try reflexivity.
  now apply open_write_frame.
Qed.

Lemma normalize_hocr_frame badxml output_hocr f lg p :
  p <> badxml -> p <> badxml +:+ ".html" -> p <> badxml +:+ ".hocr" ->
  resolve_path (moved f badxml) output_hocr <> At p ->
  fs (snd (normalize_hocr badxml output_hocr (World f lg))) !! p = f !! p.
Proof.
  intros Hb Hh Hc Ho. rewrite normalize_hocr_moves.
  rewrite <- (moved_frame f badxml p Hb Hh Hc).
  generalize dependent (moved f badxml). intros g Ho.
  unfold open_read, open_write, read_lines, write_file, write_path, bind,
    get_fs, put_fs, raise, ret. cbn [fs log].
  destruct (read_path g badxml) as [x | x]; cbn [fs log snd];
    [| reflexivity].
  destruct (resolve_path g output_hocr) as [q|] eqn:Hq; cbn [fs log snd];
    [| reflexivity].
  assert (Hne : q <> p) by congruence.
  assert (Hq' : resolve_path (<[q := FText ""]> g) output_hocr = At q).
  { unfold resolve_path in *. rewrite resolve_insert; [exact Hq | |].
    - exact (resolve_no_link _ _ _ _ Hq).
    - discriminate. }
  destruct (read_path (<[q := FText ""]> g) badxml)
    as [[t | iw ih | pages | t |] | y]; cbn [fs log snd];
    rewrite ?Hq'; cbn [fs log snd];
    now rewrite !lookup_insert_ne by exact Hne.
Qed.

(** After the engine has run, [generate_hocr] touches four files at
    most, whatever the outcome: the file the output path leads to, the
    intermediate [badxml] and the two places the engine may have left
    its document.  Every other file, and a link at the output path, is
    as the engine left it. *)
Theorem generate_hocr_frame e input_file output_hocr language engine_mode
    tessconfig pagesegmode w args_tesseract r f' p :
  let badxml := splitext_root output_hocr +:+ ".badxml" in
  hocr_call e input_file output_hocr language engine_mode tessconfig
            pagesegmode w args_tesseract r f' ->
  p <> badxml -> p <> badxml +:+ ".html" -> p <> badxml +:+ ".hocr" ->
  resolve_path f' output_hocr <> At p ->
  resolve_path (moved f' badxml) output_hocr <> At p ->
  fs (snd (generate_hocr e input_file output_hocr language engine_mode
                         tessconfig pagesegmode w)) !! p
  = f' !! p.
Proof.
  intros badxml Hcall Hb Hh Hc Ho Hm.
  rewrite (generate_hocr_run _ _ _ _ _ _ _ _ _ _ _ Hcall). fold badxml.
  destruct r as [stdout | | output]; unfold bind at 1.
  - rewrite tesseract_log_output_run. cbn [fs log].
    now apply normalize_hocr_frame.
  - unfold page_timedout, emit. cbn [fs log]. now apply null_hocr_frame.
  - rewrite tesseract_log_output_run. cbn [fs log].
    destruct (contains "read_params_file: parameter not found" output);
      [reflexivity |].
    destruct (contains "Image too large" output); [| reflexivity].
    now apply null_hocr_frame.
Qed.

Lemma generate_hocr_frame_witness :
  fs (snd (generate_hocr
             (Sample.env_writing
                (qq "<div title='image `a b.tif`; bbox 0 0 9 9'>"))
             "000007.png" "000007.hocr" ["eng"] None [] None Sample.w_image))
  !! "000007.png"
  = (<["000007.badxml.hocr"
       := FText (qq "<div title='image `a b.tif`; bbox 0 0 9 9'>")]>
       {["000007.png" := FImage 640 480]} : gmap string file) !! "000007.png".
Proof.
  refine (generate_hocr_frame
    (Sample.env_writing (qq "<div title='image `a b.tif`; bbox 0 0 9 9'>"))
    "000007.png" "000007.hocr" ["eng"] None [] None Sample.w_image
    Sample.hocr_argv (Completed "")
    (<["000007.badxml.hocr"
       := FText (qq "<div title='image `a b.tif`; bbox 0 0 9 9'>")]>
       {["000007.png" := FImage 640 480]})
    "000007.png" _ _ _ _ _ _);
    try (vm_compute; discriminate).
  exists ["tesseract"; "-l"; "eng"], ["tesseract"; "-l"; "eng"].
  now repeat split.
Defined.







End Frames.
